(** * NetBox: circuit views and user API serializers

    A shallow embedding of [netbox/circuits/views.py] (the termination swap
    and the bulk-import hook) and of [netbox/users/api/serializers.py]
    (token validation), together with the properties claimed of them.

    Database tables are finite maps from primary keys to rows, Python
    dictionaries are finite maps from strings to values, and a view is a
    computation in a state-and-exception monad over the database. *)

From Stdlib Require Import Ascii String.
From stdpp Require Import gmap strings list fin_maps pretty.

Open Scope Z_scope.
Open Scope string_scope.

(** ** Model instances and rows *)

(** A model instance held in a Python variable: its primary key and the
    values of its columns.  Two variables obtained by two queries are two
    instances, even when they name the same row. *)
Record Obj (R : Type) := mkObj { pk : Z; fields : R }.
Arguments mkObj {R} _ _.
Arguments pk {R} _.
Arguments fields {R} _.

(** Modelled from the spec: the [CircuitTermination] model class is declared
    in [circuits/models], not in [circuits/views.py].  The views name its foreign
    key to the circuit, [term_side], [site] and [provider_network]; the
    remaining columns are kept as an uninterpreted association list. *)
Record CircuitTermination := mkTermination {
  circuit_id : Z;
  term_side : string;
  site : option Z;
  provider_network : option Z;
  ct_description : string;
  ct_other : list (string * string)
}.

(** Modelled from the spec: the [Circuit] model class is declared in
    [circuits/models], not in [circuits/views.py].  [termination_a_id] and
    [termination_z_id] are the nullable references the views read and
    write; [cid] is what [str(circuit)] prints. *)
Record Circuit := mkCircuit {
  cid : string;
  provider : Z;
  provider_account : option Z;
  type : Z;
  tenant : option Z;
  c_description : string;
  termination_a_id : option Z;
  termination_z_id : option Z;
  c_other : list (string * string)
}.

Definition with_term_side (side : string) (t : CircuitTermination) : CircuitTermination :=
  {| circuit_id := circuit_id t; term_side := side; site := site t;
     provider_network := provider_network t;
     ct_description := ct_description t; ct_other := ct_other t |}.

Definition with_termination_a (a : option Z) (c : Circuit) : Circuit :=
  {| cid := cid c; provider := provider c; provider_account := provider_account c;
     type := type c; tenant := tenant c; c_description := c_description c;
     termination_a_id := a; termination_z_id := termination_z_id c;
     c_other := c_other c |}.

Definition with_termination_z (z : option Z) (c : Circuit) : Circuit :=
  {| cid := cid c; provider := provider c; provider_account := provider_account c;
     type := type c; tenant := tenant c; c_description := c_description c;
     termination_a_id := termination_a_id c; termination_z_id := z;
     c_other := c_other c |}.

(** [obj.term_side = side] on an instance. *)
Definition set_term_side (side : string) (o : Obj CircuitTermination) : Obj CircuitTermination :=
  mkObj (pk o) (with_term_side side (fields o)).

(** [circuit.termination_a = t] and [circuit.termination_z = t], where [t]
    is an instance or [None]: the assignment stores the instance's key. *)
Definition set_termination_a (t : option (Obj CircuitTermination)) (c : Obj Circuit) : Obj Circuit :=
  mkObj (pk c) (with_termination_a (pk <$> t) (fields c)).

Definition set_termination_z (t : option (Obj CircuitTermination)) (c : Obj Circuit) : Obj Circuit :=
  mkObj (pk c) (with_termination_z (pk <$> t) (fields c)).

(** ** The database *)

Record Database := mkDatabase {
  terminations : gmap Z CircuitTermination;
  circuits : gmap Z Circuit
}.

Inductive Exception :=
| Http404
| DoesNotExist
| IntegrityError
| AttributeError
| KeyError (key : string)
| ValidationError (errors : gmap string (list string))
| PermissionDenied (detail : string)
| AuthenticationFailed (detail : string).

(** Computations that read and write the database and may raise.  A raised
    exception keeps the writes made so far: the connection is in autocommit
    mode outside [atomic]. *)
Definition M (A : Type) : Type := Database → Database * (Exception + A).

Definition ret {A} (a : A) : M A := λ db, (db, inr a).
Definition raise {A} (e : Exception) : M A := λ db, (db, inl e).
Definition bind {A B} (m : M A) (k : A → M B) : M B := λ db,
  match m db with
  | (db', inr a) => k a db'
  | (db', inl e) => (db', inl e)
  end.

Global Instance M_ret : MRet M := @ret.
Global Instance M_bind : MBind M := λ A B k m, bind m k.

(** [with transaction.atomic(): body]: when the body raises, the writes it
    made are rolled back and the exception propagates. *)
Definition atomic {A} (body : M A) : M A := λ db,
  match body db with
  | (db', inr a) => (db', inr a)
  | (_, inl e) => (db, inl e)
  end.

(** The [(circuit, term_side)] unique constraint of the termination table:
    no two rows agree on both columns. *)
Definition same_slot (r1 r2 : CircuitTermination) : Prop :=
  circuit_id r1 = circuit_id r2 ∧ term_side r1 = term_side r2.

Definition unique_circuit_term_side (tbl : gmap Z CircuitTermination) : Prop :=
  ∀ k1 r1, tbl !! k1 = Some r1 →
  ∀ k2 r2, tbl !! k2 = Some r2 →
  same_slot r1 r2 → k1 = k2.

(** Writing row [r] at key [k] would break the constraint: another row
    already holds the same [(circuit, term_side)]. *)
Definition clashes (k : Z) (r : CircuitTermination) (tbl : gmap Z CircuitTermination) : Prop :=
  map_Exists (λ k' r', k' ≠ k ∧ same_slot r' r) tbl.

Global Instance same_slot_dec r1 r2 : Decision (same_slot r1 r2).
Proof. unfold same_slot. apply _. Defined.

Global Instance clashes_dec k r tbl : Decision (clashes k r tbl).
Proof. unfold clashes. apply _. Defined.

Global Instance unique_circuit_term_side_dec tbl :
  Decision (unique_circuit_term_side tbl).
Proof.
  change (Decision (map_Forall (λ k1 r1,
            map_Forall (λ k2 r2, same_slot r1 r2 → k1 = k2) tbl) tbl)).
  apply _.
Defined.

(** [CircuitTermination.objects.filter(pk=key).first()] *)
Definition filter_pk_first (key : option Z) : M (option (Obj CircuitTermination)) := λ db,
  (db, inr (k ← key; mkObj k <$> terminations db !! k)).

(** [get_object_or_404(Circuit.objects.all(), pk=key)] *)
Definition get_object_or_404 (key : Z) : M (Obj Circuit) := λ db,
  match circuits db !! key with
  | Some r => (db, inr (mkObj key r))
  | None => (db, inl Http404)
  end.

(** [termination.save()]: the row is written unless the unique constraint
    rejects it.  Receivers of the save signals, if any are registered, are
    declared outside [circuits/views.py] and are not part of this model. *)
Definition save_termination (o : Obj CircuitTermination) : M unit := λ db,
  if decide (clashes (pk o) (fields o) (terminations db))
  then (db, inl IntegrityError)
  else (mkDatabase (<[pk o := fields o]> (terminations db)) (circuits db), inr tt).

(** [circuit.refresh_from_db()]: the instance is reloaded from its row. *)
Definition refresh_from_db (c : Obj Circuit) : M (Obj Circuit) := λ db,
  match circuits db !! pk c with
  | Some r => (db, inr (mkObj (pk c) r))
  | None => (db, inl DoesNotExist)
  end.

(** [circuit.save()] *)
Definition save_circuit (c : Obj Circuit) : M unit := λ db,
  (mkDatabase (terminations db) (<[pk c := fields c]> (circuits db)), inr tt).

(** [circuit.termination_a] / [circuit.termination_z] read as an attribute:
    the referenced instance, or [None] for a null reference. *)
Definition related (key : option Z) : M (option (Obj CircuitTermination)) := λ db,
  match key with
  | None => (db, inr None)
  | Some k =>
      match terminations db !! k with
      | Some r => (db, inr (Some (mkObj k r)))
      | None => (db, inl DoesNotExist)
      end
  end.

(** ** Python values and dictionaries *)

(** Modelled from the spec: the user model is the framework's
    [get_user_model()].  Instances of one model compare equal when their
    primary keys are equal. *)
Record UserFields := mkUser { username : string; is_active : bool }.

Definition User : Type := Obj UserFields.

(** The values a request or import dictionary holds here.  Floats, lists
    and nested dictionaries are left out: no modelled function inspects
    one. *)
Inductive Value :=
| PyNone
| PyBool (b : bool)
| PyInt (n : Z)
| PyStr (s : string)
| PyUser (u : User)
| PyCircuit (c : Obj Circuit).

Abbreviation Dict := (gmap string Value).

(** [bool(v)] *)
Definition truthy (v : Value) : bool :=
  match v with
  | PyNone => false
  | PyBool b => b
  | PyInt n => negb (Z.eqb n 0)
  | PyStr s => negb (String.eqb s "")
  | PyUser _ => true
  | PyCircuit _ => true
  end.

(** [v != user] for a user instance [user]. *)
Definition differs_from (v : Value) (user : User) : bool :=
  match v with
  | PyUser u => negb (Z.eqb (pk u) (pk user))
  | _ => true
  end.

(** ** circuits/views.py *)

Record HttpRequest := mkRequest { POST : gmap string string }.

(** [ConfirmationForm] is declared in [utilities.forms]; the views only
    ask whether the posted data validates. *)
Class ConfirmationForm := form_is_valid : gmap string string → bool.

Inductive MessageLevel := error | success.

Record TemplateContext := mkContext {
  ctx_circuit : Obj Circuit;
  ctx_termination_a : option (Obj CircuitTermination);
  ctx_termination_z : option (Obj CircuitTermination);
  ctx_panel_class : string;
  ctx_button_class : string
}.

(** What a view returns, with the messages it queued for the user. *)
Inductive HttpResponse :=
| redirect (to : string) (key : Z) (messages : list (MessageLevel * string))
| render (template : string) (context : TemplateContext).

(** [str(circuit)] *)
Definition str_circuit (c : Obj Circuit) : string := cid (fields c).

Module CircuitBulkImportView.

(** [data.update({'circuit': parent}); return data] *)
Definition prep_related_object_data (parent : Obj Circuit) (data : Dict) : Dict :=
  <["circuit" := PyCircuit parent]> data.

End CircuitBulkImportView.

Module CircuitSwapTerminations.
Section views.
Context `{ConfirmationForm}.

(** [render(request, 'circuits/circuit_terminations_swap.html', {...})]:
    reading [circuit.termination_a] and [circuit.termination_z] fetches
    the referenced instances. *)
Definition render_swap (circuit : Obj Circuit) (panel_class : string) : M HttpResponse :=
  termination_a ← related (termination_a_id (fields circuit));
  termination_z ← related (termination_z_id (fields circuit));
  mret (render "circuits/circuit_terminations_swap.html"
          (mkContext circuit termination_a termination_z panel_class "primary")).

Definition get (request : HttpRequest) (key : Z) : M HttpResponse :=
  circuit ← get_object_or_404 key;
  (* Circuit must have at least one termination to swap *)
  termination_a ← related (termination_a_id (fields circuit));
  match termination_a with
  | Some _ => render_swap circuit "light"
  | None =>
      termination_z ← related (termination_z_id (fields circuit));
      match termination_z with
      | Some _ => render_swap circuit "light"
      | None =>
          mret (redirect "circuits:circuit" (pk circuit)
                  [(error, "No terminations have been defined for circuit "
                             +:+ str_circuit circuit +:+ ".")])
      end
  end.

(** The body of [with transaction.atomic()] in [post]: the relabelling
    through the placeholder, then the exchange of the two references.
    It returns the circuit instance as the body leaves it. *)
Definition swap_both (circuit : Obj Circuit)
    (termination_a termination_z : Obj CircuitTermination) : M (Obj Circuit) :=
  let termination_a := set_term_side "_" termination_a in
  save_termination termination_a;;
  let termination_z := set_term_side "A" termination_z in
  save_termination termination_z;;
  let termination_a := set_term_side "Z" termination_a in
  save_termination termination_a;;
  circuit ← refresh_from_db circuit;
  let circuit := set_termination_a (Some termination_z) circuit in
  let circuit := set_termination_z (Some termination_a) circuit in
  save_circuit circuit;;
  mret circuit.

(** The [elif termination_a] branch. *)
Definition swap_only_a (circuit : Obj Circuit)
    (termination_a : Obj CircuitTermination) : M (Obj Circuit) :=
  let termination_a := set_term_side "Z" termination_a in
  save_termination termination_a;;
  circuit ← refresh_from_db circuit;
  let circuit := set_termination_a None circuit in
  save_circuit circuit;;
  mret circuit.

(** The [else] branch; with no termination at all, [termination_z] is
    [None] and the attribute assignment raises. *)
Definition swap_only_z (circuit : Obj Circuit)
    (termination_z : option (Obj CircuitTermination)) : M (Obj Circuit) :=
  match termination_z with
  | None => raise AttributeError
  | Some termination_z =>
      let termination_z := set_term_side "A" termination_z in
      save_termination termination_z;;
      circuit ← refresh_from_db circuit;
      let circuit := set_termination_z None circuit in
      save_circuit circuit;;
      mret circuit
  end.

Definition post (request : HttpRequest) (key : Z) : M HttpResponse :=
  circuit ← get_object_or_404 key;
  if form_is_valid (POST request) then
    termination_a ← filter_pk_first (termination_a_id (fields circuit));
    termination_z ← filter_pk_first (termination_z_id (fields circuit));
    circuit ← match termination_a, termination_z with
              | Some termination_a, Some termination_z =>
                  (* Use a placeholder to avoid an IntegrityError on the
                     (circuit, term_side) unique constraint *)
                  atomic (swap_both circuit termination_a termination_z)
              | Some termination_a, None =>
                  swap_only_a circuit termination_a
              | None, _ =>
                  swap_only_z circuit termination_z
              end;
    mret (redirect "circuits:circuit" (pk circuit)
            [(success, "Swapped terminations for circuit "
                         +:+ str_circuit circuit +:+ ".")])
  else
    render_swap circuit "default".

End views.
End CircuitSwapTerminations.

(** ** users/api/serializers.py *)

(** The request as the serializers see it: [request.user]. *)
Record ApiRequest := mkApiRequest { user : User }.

(** [self.context]: [context.get('request')] is [None] when the serializer
    was built without a request. *)
Record SerializerContext := mkSerializerContext { ctx_request : option ApiRequest }.

(** The permission backend behind [user.has_perm(perm)]. *)
Class PermissionBackend := has_perm : User → string → bool.

(** [django.contrib.auth.authenticate(request=..., username=..., password=...)]:
    the authenticated user, or [None]. *)
Class AuthenticationBackend :=
  authenticate : option ApiRequest → Value → Value → option User.

(** [ValidatedModelSerializer.validate], declared in
    [netbox.api.serializers]: what [super().validate(data)] returns or
    raises. *)
Class ParentValidator := super_validate : SerializerContext → Dict → Exception + Dict.

(** The serializer's declared fields other than [key], as the framework's
    [to_internal_value] validates them: the validated entries, or the
    error codes of the fields that failed. *)
Class OtherFields :=
  other_fields_to_internal_value : Dict → gmap string (list string) + Dict.

(** *** The framework's [CharField] *)

Record CharField := mkCharField {
  min_length : option nat;
  max_length : option nat;
  allow_blank : bool;
  allow_null : bool;
  required : bool;
  trim_whitespace : bool
}.

(** *** Python text

    A [string] holds a Python str in UTF-8: a well-formed sequence of
    bytes is one character, and a byte that starts no well-formed sequence
    is the character of its own value. *)

Definition is_continuation (b : ascii) : bool :=
  let n := nat_of_ascii b in ((128 <=? n) && (n <? 192))%nat.

(** The number of bytes the sequence a byte leads has. *)
Definition width (b : ascii) : nat :=
  let n := nat_of_ascii b in
  (if n <? 192 then 1 else if n <? 224 then 2 else if n <? 240 then 3
   else if n <? 248 then 4 else 1)%nat.

(** The characters of a text, each as the bytes that encode it. *)
Fixpoint chars (bytes : list ascii) : list (list ascii) :=
  match bytes with
  | [] => []
  | b :: rest =>
      match width b with
      | 2%nat =>
          match rest with
          | c1 :: rest' =>
              if is_continuation c1 then [b; c1] :: chars rest'
              else [b] :: chars rest
          | _ => [b] :: chars rest
          end
      | 3%nat =>
          match rest with
          | c1 :: c2 :: rest' =>
              if is_continuation c1 && is_continuation c2
              then [b; c1; c2] :: chars rest'
              else [b] :: chars rest
          | _ => [b] :: chars rest
          end
      | 4%nat =>
          match rest with
          | c1 :: c2 :: c3 :: rest' =>
              if is_continuation c1 && is_continuation c2 && is_continuation c3
              then [b; c1; c2; c3] :: chars rest'
              else [b] :: chars rest
          | _ => [b] :: chars rest
          end
      | _ => [b] :: chars rest
      end
  end.

(** [ord(c)] *)
Definition code_point (c : list ascii) : N :=
  let n b := N.of_nat (nat_of_ascii b) in
  match c with
  | [b] => n b
  | [b; c1] => (n b - 192) * 64 + (n c1 - 128)
  | [b; c1; c2] => ((n b - 224) * 64 + (n c1 - 128)) * 64 + (n c2 - 128)
  | [b; c1; c2; c3] =>
      (((n b - 240) * 64 + (n c1 - 128)) * 64 + (n c2 - 128)) * 64 + (n c3 - 128)
  | _ => 0
  end%N.

(** [len(s)]: the number of characters. *)
Definition len (s : string) : nat := length (chars (list_ascii_of_string s)).

(** [c.isspace()], by code point: the whitespace characters of Unicode. *)
Definition isspace (c : N) : bool :=
  ((9 <=? c) && (c <=? 13) || (28 <=? c) && (c <=? 32)
   || (c =? 133) || (c =? 160) || (c =? 5760)
   || (8192 <=? c) && (c <=? 8202)
   || (c =? 8232) || (c =? 8233) || (c =? 8239) || (c =? 8287) || (c =? 12288))%N.

Fixpoint lstrip (s : list (list ascii)) : list (list ascii) :=
  match s with
  | c :: s' => if isspace (code_point c) then lstrip s' else s
  | [] => []
  end.

(** [s.strip()] *)
Definition strip (s : string) : string :=
  string_of_list_ascii
    (concat (rev (lstrip (rev (lstrip (chars (list_ascii_of_string s))))))).

(** [str(v)] *)
Definition str (v : Value) : string :=
  match v with
  | PyNone => "None"
  | PyBool true => "True"
  | PyBool false => "False"
  | PyInt n => pretty n
  | PyStr s => s
  | PyUser u => username (fields u)
  | PyCircuit c => str_circuit c
  end.

(** [data == '' or (self.trim_whitespace and str(data).strip() == '')] *)
Definition is_blank (f : CharField) (v : Value) : bool :=
  (if v is PyStr s then String.eqb s "" else false)
  || trim_whitespace f && String.eqb (strip (str v)) "".

(** [CharField.to_internal_value]: strings and integers are coerced,
    booleans and other objects are invalid.  An error is the list of its
    codes. *)
Definition char_to_internal_value (f : CharField) (v : Value) : list string + string :=
  match v with
  | PyStr _ | PyInt _ => inr (if trim_whitespace f then strip (str v) else str v)
  | _ => inl ["invalid"]
  end.

Definition has_null (s : string) : bool :=
  existsb (λ c, Nat.eqb (nat_of_ascii c) 0) (list_ascii_of_string s).

(** A surrogate code point, U+D800 to U+DFFF, among the characters. *)
Definition has_surrogate (s : string) : bool :=
  existsb (λ c, (55296 <=? code_point c) && (code_point c <=? 57343))%N
    (chars (list_ascii_of_string s)).

(** The validators a [CharField] installs, in order: maximum length,
    minimum length, no null character, no surrogate character.  Each gives
    the code of its error when it fails. *)
Definition validators (f : CharField) : list (string → option string) :=
  (if max_length f is Some n
   then [λ value, if (n <? len value)%nat then Some "max_length" else None]
   else []) ++
  (if min_length f is Some n
   then [λ value, if (len value <? n)%nat then Some "min_length" else None]
   else []) ++
  [λ value, if has_null value then Some "null_characters_not_allowed" else None;
   λ value, if has_surrogate value then Some "surrogate_characters_not_allowed"
            else None].

(** [run_validators]: every validator runs, and the errors of all that
    fail are raised together. *)
Definition run_validators (f : CharField) (value : string) : list string + string :=
  match omap (λ validator, validator value) (validators f) with
  | [] => inr value
  | errors => inl errors
  end.

(** [CharField.run_validation(data)], where [data] is [None] for the
    framework's [empty] marker; the result [None] is [SkipField]. *)
Definition run_validation (f : CharField) (data : option Value) : list string + option string :=
  match data with
  | None =>
      if required f then inl ["required"] else inr None
  | Some v =>
      if is_blank f v then
        if allow_blank f then inr (Some "") else inl ["blank"]
      else
        match v with
        | PyNone =>
            if allow_null f then inr None else inl ["null"]
        | _ =>
            match char_to_internal_value f v with
            | inl e => inl e
            | inr value =>
                match run_validators f value with
                | inl e => inl e
                | inr value => inr (Some value)
                end
            end
        end
  end.

(** [Serializer.to_internal_value] for a serializer whose [key] field is
    [f]: every field is validated; the validated values are collected
    when none failed, and the errors of all that failed are raised
    together otherwise. *)
Definition serializer_to_internal_value `{OtherFields} (f : CharField) (data : Dict)
    : Exception + Dict :=
  match run_validation f (data !! "key"), other_fields_to_internal_value data with
  | inl codes, inl errors => inl (ValidationError (<["key" := codes]> errors))
  | inl codes, inr _ => inl (ValidationError {[ "key" := codes ]})
  | inr _, inl errors => inl (ValidationError errors)
  | inr (Some k), inr ret => inr (<["key" := PyStr k]> ret)
  | inr None, inr ret => inr (delete "key" ret)
  end.

Module TokenSerializer.
Section serializer.
Context `{PermissionBackend} `{ParentValidator} `{OtherFields}.

Definition key : CharField :=
  {| min_length := Some 40%nat;
     max_length := Some 40%nat;
     allow_blank := true;
     allow_null := false;
     required := false;
     trim_whitespace := true |}.

(** [generated_key] is what [Token.generate_key()] returns when called. *)
Definition to_internal_value (generated_key : string) (data : Dict) : Exception + Dict :=
  let data := if data !! "key" is None
              then <["key" := PyStr generated_key]> data
              else data in
  serializer_to_internal_value key data.

Definition validate (context : SerializerContext) (data : Dict) : Exception + Dict :=
  (* If the Token is being created on behalf of another user, enforce the
     grant_token permission. *)
  let request := ctx_request context in
  let token_user := default PyNone (data !! "user") in
  if truthy token_user then
    match request with
    | None => inl AttributeError
    | Some request =>
        if differs_from token_user (user request)
           && negb (has_perm (user request) "users.grant_token")
        then inl (PermissionDenied
                    "This user does not have permission to create tokens for other users.")
        else super_validate context data
    end
  else super_validate context data.

End serializer.
End TokenSerializer.

Module TokenProvisionSerializer.
Section serializer.
Context `{AuthenticationBackend}.

Definition validate (context : SerializerContext) (data : Dict) : Exception + Dict :=
  (* Validate the username and password *)
  match data !! "username" with
  | None => inl (KeyError "username")
  | Some username =>
      let data := delete "username" data in
      match data !! "password" with
      | None => inl (KeyError "password")
      | Some password =>
          let data := delete "password" data in
          match authenticate (ctx_request context) username password with
          | None => inl (AuthenticationFailed "Invalid username/password")
          | Some user =>
              (* Inject the user into the validated data *)
              inr (<["user" := PyUser user]> data)
          end
      end
  end.

End serializer.
End TokenProvisionSerializer.

(** A row of the user table as [UserSerializer.create] sees it: the
    user's columns and the stored password. *)
Record UserRow := mkUserRow { user_fields : UserFields; password : string }.

(** [django.contrib.auth.hashers.make_password], which
    [user.set_password(raw)] stores the result of. *)
Class PasswordHasher := make_password : Value → string.

(** [ModelSerializer.create], the framework's [super().create(validated_data)]:
    it may write the user table and returns the new instance or raises. *)
Class ParentCreate :=
  super_create : Dict → gmap Z UserRow → gmap Z UserRow * (Exception + Obj UserRow).

Module UserSerializer.
Section serializer.
Context `{PasswordHasher} `{ParentCreate}.

(** Extract the password from validated data and set it separately to
    ensure proper hash generation. *)
Definition create (validated_data : Dict) (users : gmap Z UserRow)
    : gmap Z UserRow * (Exception + Obj UserRow) :=
  match validated_data !! "password" with
  | None => (users, inl (KeyError "password"))
  | Some password =>
      let validated_data := delete "password" validated_data in
      match super_create validated_data users with
      | (users, inl e) => (users, inl e)
      | (users, inr user) =>
          (* user.set_password(password) *)
          let user := mkObj (pk user)
                        (mkUserRow (user_fields (fields user)) (make_password password)) in
          (* user.save() *)
          (<[pk user := fields user]> users, inr user)
      end
  end.

End serializer.
End UserSerializer.

(** ** Vocabulary of the statements *)

(** The label of termination [k], when the row exists. *)
Definition side_of (db : Database) (k : Z) : option string :=
  term_side <$> terminations db !! k.

(** What [circuit.termination_a] and [circuit.termination_z] of circuit
    [key] refer to, when the circuit exists. *)
Definition ref_a (db : Database) (key : Z) : option (option Z) :=
  termination_a_id <$> circuits db !! key.

Definition ref_z (db : Database) (key : Z) : option (option Z) :=
  termination_z_id <$> circuits db !! key.

(** The termination a reference resolves to: none for a null reference. *)
Definition resolve (db : Database) (ref : option Z) : option CircuitTermination :=
  k ← ref; terminations db !! k.

(** The database with termination row [k] rewritten as [r]. *)
Definition relabelled (db : Database) (k : Z) (r : CircuitTermination) : Database :=
  mkDatabase (<[k := r]> (terminations db)) (circuits db).

(** The database after the four writes of the two-termination swap. *)
Definition swapped (db : Database) (key : Z) (c : Circuit)
    (a : Z) (ra : CircuitTermination) (z : Z) (rz : CircuitTermination) : Database :=
  mkDatabase
    (<[a := with_term_side "Z" ra]>
       (<[z := with_term_side "A" rz]>
          (<[a := with_term_side "_" ra]> (terminations db))))
    (<[key := with_termination_z (Some a) (with_termination_a (Some z) c)]> (circuits db)).

(** The response of a swap that went through. *)
Definition swapped_response (key : Z) (c : Circuit) : HttpResponse :=
  redirect "circuits:circuit" key
    [(success, "Swapped terminations for circuit " +:+ cid c +:+ ".")].

(** Two rows that agree on every column but [term_side]. *)
Definition same_but_side (r r' : CircuitTermination) : Prop :=
  r' = with_term_side (term_side r') r.

(** Two circuit rows that agree on every column but the two references. *)
Definition same_but_refs (c c' : Circuit) : Prop :=
  c' = with_termination_z (termination_z_id c') (with_termination_a (termination_a_id c') c).

(** ** Sample data *)

(** A form that validates when the posted data confirms. *)
Definition confirming : ConfirmationForm :=
  λ data, bool_decide (data !! "confirm" = Some "true").

Definition confirmed : HttpRequest := mkRequest {[ "confirm" := "true" ]}.

Definition sample_a : CircuitTermination :=
  mkTermination 1 "A" (Some 5) None "towards the exchange" [("xconnect_id", "X-100")].

Definition sample_z : CircuitTermination :=
  mkTermination 1 "Z" None (Some 7) "customer side" [].

Definition sample_circuit : Circuit :=
  mkCircuit "CID-1" 3 None 4 None "" (Some 10) (Some 20) [].

(** Circuit 1 with its A side (termination 10) and its Z side
    (termination 20). *)
Definition sample_db : Database :=
  mkDatabase {[ 10 := sample_a; 20 := sample_z ]} {[ 1 := sample_circuit ]}.

(** Circuit 1 with an A side only, and with a Z side only. *)
Definition only_a_db : Database :=
  mkDatabase {[ 10 := sample_a ]}
    {[ 1 := with_termination_z None sample_circuit ]}.

Definition only_z_db : Database :=
  mkDatabase {[ 20 := sample_z ]}
    {[ 1 := with_termination_a None sample_circuit ]}.

(** Circuit 1 with no termination. *)
Definition bare_db : Database :=
  mkDatabase ∅ {[ 1 := with_termination_a None (with_termination_z None sample_circuit) ]}.

(** Circuit 1 whose Z reference names a termination of circuit 2, which
    already has an A side: the second relabelling is rejected. *)
Definition crossed_db : Database :=
  mkDatabase
    {[ 10 := sample_a;
       20 := mkTermination 2 "Z" None None "" [];
       30 := mkTermination 2 "A" None None "" [] ]}
    {[ 1 := sample_circuit ]}.

(** A permission backend in which user 1 alone may grant tokens, a parent
    validator that accepts everything, credentials that authenticate user
    7, and a serializer whose other fields validate to nothing. *)
Definition only_admin_grants : PermissionBackend :=
  λ u perm, bool_decide (pk u = 1) && String.eqb perm "users.grant_token".

Definition accepting_parent : ParentValidator := λ _ data, inr data.

Definition alice : User := mkObj 7 (mkUser "alice" true).
Definition bob : User := mkObj 8 (mkUser "bob" true).

Definition one_account : AuthenticationBackend :=
  λ _ username password,
    match username, password with
    | PyStr "alice", PyStr "correct horse" => Some alice
    | _, _ => None
    end.

Definition no_other_fields : OtherFields := λ _, inr ∅.

Definition sample_key : string := "0123456789abcdef0123456789abcdef01234567".

(** ** Further vocabulary *)

(** Reference [ref] of circuit [key] is null or names a termination of
    that circuit labelled [side]. *)
Definition names (db : Database) (key : Z) (ref : option Z) (side : string) : Prop :=
  match ref with
  | None => True
  | Some k =>
      match terminations db !! k with
      | Some r => circuit_id r = key ∧ term_side r = side
      | None => False
      end
  end.

Global Instance names_dec db key ref side : Decision (names db key ref side).
Proof.
  unfold names. destruct ref as [k|]; [|apply _].
  destruct (terminations db !! k); apply _.
Defined.

(** Every circuit's A reference is null or names one of its terminations
    labelled 'A', and likewise its Z reference with 'Z'. *)
Definition references_consistent (db : Database) : Prop :=
  map_Forall (λ key c, names db key (termination_a_id c) "A" ∧
                       names db key (termination_z_id c) "Z") (circuits db).

(** No reference of circuit row [c] names a missing termination. *)
Definition no_dangling (db : Database) (c : Circuit) : Prop :=
  (termination_a_id c = None ∨ is_Some (resolve db (termination_a_id c))) ∧
  (termination_z_id c = None ∨ is_Some (resolve db (termination_z_id c))).

(** The instance a reference resolves to. *)
Definition instance_of (db : Database) (ref : option Z) : option (Obj CircuitTermination) :=
  k ← ref; mkObj k <$> terminations db !! k.

(** The confirmation page of the swap. *)
Definition swap_page (db : Database) (key : Z) (c : Circuit) (panel_class : string)
    : HttpResponse :=
  render "circuits/circuit_terminations_swap.html"
    (mkContext (mkObj key c) (instance_of db (termination_a_id c))
       (instance_of db (termination_z_id c)) panel_class "primary").

(** The database after the swap of a lone A termination, and of a lone Z
    termination. *)
Definition swapped_only_a (db : Database) (key : Z) (c : Circuit)
    (a : Z) (ra : CircuitTermination) : Database :=
  mkDatabase (<[a := with_term_side "Z" ra]> (terminations db))
    (<[key := with_termination_a None c]> (circuits db)).

Definition swapped_only_z (db : Database) (key : Z) (c : Circuit)
    (z : Z) (rz : CircuitTermination) : Database :=
  mkDatabase (<[z := with_term_side "A" rz]> (terminations db))
    (<[key := with_termination_z None c]> (circuits db)).

(** U+00A0, the no-break space, in UTF-8. *)
Definition nbsp : string := String (ascii_of_nat 194) (String (ascii_of_nat 160) "").

(** The characters [Token.generate_key] draws from: lower-case hexadecimal
    digits. *)
Definition is_hexdigit (c : ascii) : bool :=
  let n := nat_of_ascii c in
  ((48 <=? n) && (n <=? 57) || (97 <=? n) && (n <=? 102))%nat.

Definition is_hex (s : string) : bool :=
  forallb is_hexdigit (list_ascii_of_string s).

(** A request whose form does not validate. *)
Definition unconfirmed : HttpRequest := mkRequest ∅.

(** A hasher that tags the text of the password, and a parent [create]
    that stores the new user under key 1 with the password it was given,
    if any. *)
Definition tagging_hasher : PasswordHasher := λ v, "hash:" +:+ str v.

Definition storing_parent : ParentCreate :=
  λ data users,
    let row := mkUserRow (mkUser (str (default PyNone (data !! "username"))) true)
                 (str (default (PyStr "") (data !! "password"))) in
    (<[1 := row]> users, inr (mkObj 1 row)).


(** The redirect of a GET on a circuit without terminations. *)
Definition no_terminations_response (key : Z) (c : Circuit) : HttpResponse :=
  redirect "circuits:circuit" key
    [(error, "No terminations have been defined for circuit " +:+ cid c +:+ ".")].

(** The values [CharField.to_internal_value] coerces to a string. *)
Definition coercible (v : Value) : bool :=
  match v with
  | PyStr _ | PyInt _ => true
  | _ => false
  end.

(** What the [key] field makes of a supplied value it accepts. *)
Definition accepted_key (v : Value) : string :=
  if is_blank TokenSerializer.key v then "" else strip (str v).

(** ** The termination swap *)

Import CircuitSwapTerminations.

Ltac run :=
  unfold post, swap_both, swap_only_a, swap_only_z, get, render_swap, atomic,
    get_object_or_404, filter_pk_first, related, refresh_from_db,
    save_termination, save_circuit, raise, mbind, mret, M_bind, M_ret, bind, ret;
  cbn [pk fields set_term_side set_termination_a set_termination_z
       terminations circuits fmap option_fmap option_map].

Lemma atomic_commit_or_rollback {A} (body : M A) (db : Database) :
  (∃ db' a, body db = (db', inr a) ∧ atomic body db = (db', inr a)) ∨
  (∃ db' e, body db = (db', inl e) ∧ atomic body db = (db, inl e)).
Proof.
  unfold atomic. destruct (body db) as [db' [e|a]]; [right|left]; eauto.
Qed.

Lemma post_both_cases `{ConfirmationForm} request key db c a ra z rz :
  circuits db !! key = Some c →
  termination_a_id c = Some a →
  termination_z_id c = Some z →
  terminations db !! a = Some ra →
  terminations db !! z = Some rz →
  form_is_valid (POST request) = true →
  post request key db = (swapped db key c a ra z rz, inr (swapped_response key c)) ∨
  post request key db = (db, inl IntegrityError).
Proof.
  intros Hc Ha Hz Hra Hrz Hv. run.
  rewrite Hc, Hv. cbn. rewrite Ha, Hz. cbn. rewrite Hra, Hrz. cbn.
  repeat (case_decide; cbn; [by right|]).
  rewrite Hc. cbn. by left.
Qed.

Lemma with_term_side_id r side : term_side r = side → with_term_side side r = r.
Proof. destruct r; cbn; by intros ->. Qed.

Lemma with_term_side_twice r side side' :
  with_term_side side (with_term_side side' r) = with_term_side side r.
Proof. reflexivity. Qed.

Lemma side_of_Some db k side :
  side_of db k = Some side →
  ∃ r, terminations db !! k = Some r ∧ term_side r = side.
Proof.
  unfold side_of. destruct (terminations db !! k) as [r|]; [|done].
  cbn. intros [= <-]. eauto.
Qed.

Lemma post_both_success `{ConfirmationForm} request key db db' resp c a ra z rz :
  circuits db !! key = Some c →
  termination_a_id c = Some a →
  termination_z_id c = Some z →
  terminations db !! a = Some ra →
  terminations db !! z = Some rz →
  form_is_valid (POST request) = true →
  post request key db = (db', inr resp) →
  db' = swapped db key c a ra z rz ∧ resp = swapped_response key c.
Proof.
  intros Hc Ha Hz Hra Hrz Hv Hpost.
  destruct (post_both_cases request key db c a ra z rz) as [E|E];
    try done; rewrite E in Hpost; by simplify_eq.
Qed.

(** C1: on a circuit whose A and Z references both resolve, the first to
    the termination labelled 'A' and the second to the one labelled 'Z', a
    POST with a valid confirmation form that returns normally leaves the
    former A termination labelled 'Z', the former Z termination labelled
    'A', and the circuit's two references exchanged. *)
Theorem swap_exchanges_terminations `{ConfirmationForm}
    request key db db' resp c a z :
  circuits db !! key = Some c →
  termination_a_id c = Some a →
  termination_z_id c = Some z →
  side_of db a = Some "A" →
  side_of db z = Some "Z" →
  form_is_valid (POST request) = true →
  post request key db = (db', inr resp) →
  side_of db' a = Some "Z" ∧ side_of db' z = Some "A" ∧
  ref_a db' key = Some (Some z) ∧ ref_z db' key = Some (Some a).
Proof.
  intros Hc Ha Hz [ra [Hra Sa]]%side_of_Some [rz [Hrz Sz]]%side_of_Some Hv Hpost.
  assert (a ≠ z) by (intros ->; congruence).
  destruct (post_both_success request key db db' resp c a ra z rz) as [-> _];
    try done.
  unfold side_of, ref_a, ref_z, swapped; cbn.
  by simplify_map_eq.
Qed.

Lemma swap_exchanges_terminations_witness :
  side_of (@post confirming confirmed 1 sample_db).1 10 = Some "Z" ∧
  side_of (@post confirming confirmed 1 sample_db).1 20 = Some "A" ∧
  ref_a (@post confirming confirmed 1 sample_db).1 1 = Some (Some 20) ∧
  ref_z (@post confirming confirmed 1 sample_db).1 1 = Some (Some 10).
Proof.
  apply (@swap_exchanges_terminations confirming confirmed 1 sample_db _
           (swapped_response 1 sample_circuit) sample_circuit 10 20);
    vm_compute; reflexivity.
Defined.

Lemma clashes_iff k r tbl :
  clashes k r tbl ↔ ∃ k' r', tbl !! k' = Some r' ∧ k' ≠ k ∧ same_slot r' r.
Proof. reflexivity. Qed.

Lemma save_termination_Ok o db :
  ¬ clashes (pk o) (fields o) (terminations db) →
  save_termination o db =
    (mkDatabase (<[pk o := fields o]> (terminations db)) (circuits db), inr tt).
Proof. intros Hn. unfold save_termination. by case_decide. Qed.

Lemma insert_keeps_unique k r tbl :
  unique_circuit_term_side tbl →
  ¬ clashes k r tbl →
  unique_circuit_term_side (<[k := r]> tbl).
Proof.
  intros Hu Hn k1 r1 H1 k2 r2 H2 Hs.
  destruct (decide (k1 = k)) as [->|N1], (decide (k2 = k)) as [->|N2];
    simplify_map_eq; try done.
  - exfalso. apply Hn, clashes_iff. exists k2, r2.
    repeat split; try done; by destruct Hs.
  - exfalso. apply Hn, clashes_iff. by exists k1, r1.
  - by eapply Hu.
Qed.

Lemma swap_both_run key c a ra z rz db :
  circuits db !! key = Some c →
  swap_both (mkObj key c) (mkObj a ra) (mkObj z rz) db =
    let db1 := relabelled db a (with_term_side "_" ra) in
    let db2 := relabelled db1 z (with_term_side "A" rz) in
    let db3 := relabelled db2 a (with_term_side "Z" ra) in
    let circuit := with_termination_z (Some a) (with_termination_a (Some z) c) in
    if decide (clashes a (with_term_side "_" ra) (terminations db))
    then (db, inl IntegrityError)
    else if decide (clashes z (with_term_side "A" rz) (terminations db1))
    then (db1, inl IntegrityError)
    else if decide (clashes a (with_term_side "Z" ra) (terminations db2))
    then (db2, inl IntegrityError)
    else (mkDatabase (terminations db3) (<[key := circuit]> (circuits db)),
          inr (mkObj key circuit)).
Proof.
  intros Hc. unfold relabelled. run. cbn zeta.
  rewrite !with_term_side_twice.
  repeat (case_decide; cbn; [done|]). by rewrite Hc.
Qed.

Lemma post_both_unfold `{ConfirmationForm} request key db c a ra z rz :
  circuits db !! key = Some c →
  termination_a_id c = Some a →
  termination_z_id c = Some z →
  terminations db !! a = Some ra →
  terminations db !! z = Some rz →
  form_is_valid (POST request) = true →
  post request key db =
    match atomic (swap_both (mkObj key c) (mkObj a ra) (mkObj z rz)) db with
    | (db', inr circuit) =>
        (db', inr (redirect "circuits:circuit" (pk circuit)
                     [(success, "Swapped terminations for circuit "
                                  +:+ str_circuit circuit +:+ ".")]))
    | (db', inl e) => (db', inl e)
    end.
Proof.
  intros Hc Ha Hz Hra Hrz Hv.
  unfold post, get_object_or_404, filter_pk_first, mbind, mret, M_bind, M_ret, bind, ret.
  rewrite Hc, Hv. cbn. rewrite Ha, Hz. cbn. by rewrite Hra, Hrz.
Qed.

(** C2: when both terminations exist, the swap is three saves in this
    order - termination_a as '_', then termination_z as 'A', then
    termination_a as 'Z' - run inside one transaction.  The order shows in
    what the body has written when a save is rejected: nothing at the
    first, the placeholder alone at the second, the placeholder and the
    'A' at the third.  The transaction shows in what POST leaves then: the
    database of before the request, whatever the body had written.  And
    with both terminations on the circuit, labelled 'A' and 'Z', a table
    that satisfies the (circuit, term_side) constraint and no termination
    of the circuit carrying the placeholder, no save is rejected and the
    table after each of them satisfies the constraint. *)
Theorem swap_three_step_relabelling `{ConfirmationForm}
    request key db c a ra z rz :
  circuits db !! key = Some c →
  termination_a_id c = Some a →
  termination_z_id c = Some z →
  terminations db !! a = Some ra →
  terminations db !! z = Some rz →
  form_is_valid (POST request) = true →
  let body := swap_both (mkObj key c) (mkObj a ra) (mkObj z rz) in
  let db1 := relabelled db a (with_term_side "_" ra) in
  let db2 := relabelled db1 z (with_term_side "A" rz) in
  let db3 := relabelled db2 a (with_term_side "Z" ra) in
  let db4 := mkDatabase (terminations db3)
               (<[key := with_termination_z (Some a) (with_termination_a (Some z) c)]>
                  (circuits db)) in
  let rejected1 := clashes a (with_term_side "_" ra) (terminations db) in
  let rejected2 := clashes z (with_term_side "A" rz) (terminations db1) in
  let rejected3 := clashes a (with_term_side "Z" ra) (terminations db2) in
  (rejected1 → body db = (db, inl IntegrityError)) ∧
  (¬ rejected1 → rejected2 → body db = (db1, inl IntegrityError)) ∧
  (¬ rejected1 → ¬ rejected2 → rejected3 → body db = (db2, inl IntegrityError)) ∧
  (¬ rejected1 → ¬ rejected2 → ¬ rejected3 → ∃ circuit, body db = (db4, inr circuit)) ∧
  (∀ partial e, body db = (partial, inl e) → post request key db = (db, inl e)) ∧
  (∀ db' circuit, body db = (db', inr circuit) →
     post request key db = (db', inr (swapped_response key c))) ∧
  (unique_circuit_term_side (terminations db) →
   circuit_id ra = key → term_side ra = "A" →
   circuit_id rz = key → term_side rz = "Z" →
   map_Forall (λ _ r, circuit_id r = key → term_side r ≠ "_") (terminations db) →
   (¬ rejected1 ∧ ¬ rejected2 ∧ ¬ rejected3) ∧
   save_termination (set_term_side "_" (mkObj a ra)) db = (db1, inr tt) ∧
   save_termination (set_term_side "A" (mkObj z rz)) db1 = (db2, inr tt) ∧
   save_termination (set_term_side "Z" (set_term_side "_" (mkObj a ra))) db2
     = (db3, inr tt) ∧
   (side_of db1 a = Some "_" ∧ side_of db1 z = Some "Z") ∧
   (side_of db2 a = Some "_" ∧ side_of db2 z = Some "A") ∧
   (side_of db3 a = Some "Z" ∧ side_of db3 z = Some "A") ∧
   unique_circuit_term_side (terminations db1) ∧
   unique_circuit_term_side (terminations db2) ∧
   unique_circuit_term_side (terminations db3) ∧
   post request key db = (db4, inr (swapped_response key c))).
Proof.
  intros Hc Ha Hz Hra Hrz Hv body db1 db2 db3 db4 rejected1 rejected2 rejected3.
  pose proof (swap_both_run key c a ra z rz db Hc) as Hbody.
  pose proof (post_both_unfold request key db c a ra z rz Hc Ha Hz Hra Hrz Hv)
    as Hpost.
  fold body in Hbody, Hpost. cbv zeta in Hbody.
  fold db1 db2 db3 db4 rejected1 rejected2 rejected3 in Hbody.
  assert (∀ partial e, body db = (partial, inl e) → post request key db = (db, inl e))
    as Hrollback.
  { intros partial e E. rewrite Hpost. unfold atomic. by rewrite E. }
  assert (∀ db' circuit, body db = (db', inr circuit) →
            post request key db = (db', inr (swapped_response key c))) as Hcommit.
  { intros db' circuit E. rewrite Hpost. unfold atomic. rewrite E.
    rewrite Hbody in E. repeat case_decide; by simplify_eq. }
  split_and!; try done.
  - intros R1. rewrite Hbody. by rewrite decide_True.
  - intros R1 R2. rewrite Hbody. by rewrite decide_False, decide_True.
  - intros R1 R2 R3. rewrite Hbody.
    by rewrite decide_False, decide_False, decide_True.
  - intros R1 R2 R3. rewrite Hbody.
    rewrite !decide_False by done. eauto.
  - intros Hu Ca Sa Cz Sz Hfree.
    assert (a ≠ z) as Hne by (intros ->; congruence).
    assert (¬ rejected1) as N1.
    { intros (k & r & Hk & _ & Hcid & Hside). cbn in *.
      eapply Hfree; [exact Hk|congruence|done]. }
    assert (¬ rejected2) as N2.
    { intros (k & r & Hk & Hkz & Hcid & Hside). cbn in *.
      destruct (decide (k = a)) as [->|Hka];
        [rewrite lookup_insert_eq in Hk
        |rewrite lookup_insert_ne in Hk by congruence].
      - by simplify_eq.
      - apply Hka, (Hu k r Hk a ra Hra). split; congruence. }
    assert (¬ rejected3) as N3.
    { intros (k & r & Hk & Hka & Hcid & Hside). cbn in *.
      destruct (decide (k = z)) as [->|Hkz];
        [rewrite lookup_insert_eq in Hk
        |rewrite !lookup_insert_ne in Hk by congruence].
      - by simplify_eq.
      - apply Hkz, (Hu k r Hk z rz Hrz). split; congruence. }
    assert (unique_circuit_term_side (terminations db1)) as U1
      by by apply insert_keeps_unique.
    assert (unique_circuit_term_side (terminations db2)) as U2
      by by apply insert_keeps_unique.
    assert (unique_circuit_term_side (terminations db3)) as U3
      by by apply insert_keeps_unique.
    split; [done|].
    split; [by rewrite save_termination_Ok|].
    split; [by rewrite save_termination_Ok|].
    split; [by rewrite save_termination_Ok|].
    split; [unfold side_of; cbn; simplify_map_eq; by rewrite Sz|].
    split; [unfold side_of; cbn; by simplify_map_eq|].
    split; [unfold side_of; cbn; by simplify_map_eq|].
    do 3 (split; [done|]).
    eapply Hcommit. rewrite Hbody. by rewrite !decide_False by done.
Qed.

Lemma swap_three_step_relabelling_witness :
  (swap_both (mkObj 1 sample_circuit) (mkObj 10 sample_a)
     (mkObj 20 (mkTermination 2 "Z" None None "" [])) crossed_db
   = (relabelled crossed_db 10 (with_term_side "_" sample_a), inl IntegrityError) ∧
   @post confirming confirmed 1 crossed_db = (crossed_db, inl IntegrityError)) ∧
  (unique_circuit_term_side
     (terminations (relabelled sample_db 10 (with_term_side "_" sample_a))) ∧
   @post confirming confirmed 1 sample_db
   = (swapped sample_db 1 sample_circuit 10 sample_a 20 sample_z,
      inr (swapped_response 1 sample_circuit))).
Proof.
  split.
  - destruct (@swap_three_step_relabelling confirming confirmed 1 crossed_db
                sample_circuit 10 sample_a 20 (mkTermination 2 "Z" None None "" []))
      as (_ & Hsecond & _ & _ & Hrollback & _); [vm_compute; reflexivity..|].
    assert (swap_both (mkObj 1 sample_circuit) (mkObj 10 sample_a)
              (mkObj 20 (mkTermination 2 "Z" None None "" [])) crossed_db
            = (relabelled crossed_db 10 (with_term_side "_" sample_a),
               inl IntegrityError)) as Hbody.
    { apply Hsecond; apply (bool_decide_unpack _); vm_compute; exact I. }
    split; [exact Hbody|]. by eapply Hrollback.
  - destruct (@swap_three_step_relabelling confirming confirmed 1 sample_db
                sample_circuit 10 sample_a 20 sample_z)
      as (_ & _ & _ & _ & _ & _ & Hhappy); [vm_compute; reflexivity..|].
    destruct Hhappy as (_ & _ & _ & _ & _ & _ & _ & U1 & _ & _ & Hpost);
      try (vm_compute; reflexivity);
      try (apply (bool_decide_unpack _); vm_compute; exact I).
    split; [exact U1|]. rewrite Hpost. vm_compute. reflexivity.
Defined.

(** C3: when both references resolve, a POST with a valid form has two
    possible outcomes.  Either it returns normally and all four writes are
    in the database - the three relabellings and the exchanged references
    - or the transaction body raised part-way, and the database is exactly
    the one before the request, whatever the body had written by then. *)
Theorem swap_atomic `{ConfirmationForm} request key db c a ra z rz :
  circuits db !! key = Some c →
  termination_a_id c = Some a →
  termination_z_id c = Some z →
  terminations db !! a = Some ra →
  terminations db !! z = Some rz →
  form_is_valid (POST request) = true →
  (post request key db = (swapped db key c a ra z rz, inr (swapped_response key c)) ∧
   side_of (swapped db key c a ra z rz) a = Some "Z" ∧
   (a ≠ z → side_of (swapped db key c a ra z rz) z = Some "A") ∧
   ref_a (swapped db key c a ra z rz) key = Some (Some z) ∧
   ref_z (swapped db key c a ra z rz) key = Some (Some a))
  ∨
  (∃ e partial,
     swap_both (mkObj key c) (mkObj a ra) (mkObj z rz) db = (partial, inl e) ∧
     post request key db = (db, inl e)).
Proof.
  intros Hc Ha Hz Hra Hrz Hv.
  pose proof (post_both_unfold request key db c a ra z rz Hc Ha Hz Hra Hrz Hv) as Hpost.
  destruct (atomic_commit_or_rollback
              (swap_both (mkObj key c) (mkObj a ra) (mkObj z rz)) db)
    as [(db' & c' & Hbody & Hat)|(partial & e & Hbody & Hat)].
  - left. rewrite Hat in Hpost.
    destruct (post_both_cases request key db c a ra z rz) as [E|E]; try done;
      [|by rewrite E in Hpost].
    split; [done|]. unfold side_of, ref_a, ref_z, swapped; cbn.
    split; [by simplify_map_eq|]. split; [intros; by simplify_map_eq|].
    by simplify_map_eq.
  - right. exists e, partial. by rewrite Hpost, Hat.
Qed.

Lemma swap_atomic_witness :
  @post confirming confirmed 1 crossed_db = (crossed_db, inl IntegrityError) ∧
  side_of (@swap_both (mkObj 1 sample_circuit) (mkObj 10 sample_a)
             (mkObj 20 (mkTermination 2 "Z" None None "" [])) crossed_db).1 10
    = Some "_".
Proof.
  destruct (@swap_atomic confirming confirmed 1 crossed_db sample_circuit
              10 sample_a 20 (mkTermination 2 "Z" None None "" []))
    as [[E _]|(e & partial & Hbody & E)];
    try (vm_compute; reflexivity).
  - exfalso. vm_compute in E. discriminate E.
  - split; [|vm_compute; reflexivity].
    rewrite E. f_equal. vm_compute in Hbody. congruence.
Defined.

(** The transaction matters: on the same database the body alone leaves
    termination 10 relabelled with the placeholder. *)
Example swap_both_without_atomic :
  swap_both (mkObj 1 sample_circuit) (mkObj 10 sample_a)
    (mkObj 20 (mkTermination 2 "Z" None None "" [])) crossed_db
  = (mkDatabase (<[10 := with_term_side "_" sample_a]> (terminations crossed_db))
       (circuits crossed_db),
     inl IntegrityError).
Proof. vm_compute. reflexivity. Qed.

Lemma swap_twice_database `{ConfirmationForm}
    request key db db1 resp1 db2 resp2 c a z :
  circuits db !! key = Some c →
  termination_a_id c = Some a →
  termination_z_id c = Some z →
  side_of db a = Some "A" →
  side_of db z = Some "Z" →
  form_is_valid (POST request) = true →
  post request key db = (db1, inr resp1) →
  post request key db1 = (db2, inr resp2) →
  db2 = db.
Proof.
  intros Hc Ha Hz [ra [Hra Sa]]%side_of_Some [rz [Hrz Sz]]%side_of_Some Hv H1 H2.
  assert (a ≠ z) as Hne by (intros ->; congruence).
  destruct (post_both_success request key db db1 resp1 c a ra z rz) as [-> _];
    try done.
  eapply (post_both_success request key _ db2 resp2 _ z _ a) in H2 as [-> _];
    try done; unfold swapped; cbn; [|by simplify_map_eq..].
  destruct db as [tbl cs]; cbn in *. f_equal.
  - rewrite !with_term_side_twice.
    rewrite (with_term_side_id ra "A"), (with_term_side_id rz "Z") by done.
    apply map_eq; intros k.
    destruct (decide (k = a)) as [->|]; [|destruct (decide (k = z)) as [->|]];
      by simplify_map_eq.
  - apply map_eq; intros k.
    destruct (decide (k = key)) as [->|]; simplify_map_eq; [|done].
    destruct c; cbn in *. by subst.
Qed.

(** C9: on a circuit whose A reference names the termination labelled 'A'
    and whose Z reference names the one labelled 'Z', two POSTs with a
    valid form that both return normally restore what the first one
    found: every termination carries the label it had, and the circuit's
    two references are the ones it had. *)
Theorem swap_twice_restores `{ConfirmationForm}
    request key db db1 resp1 db2 resp2 c a z :
  circuits db !! key = Some c →
  termination_a_id c = Some a →
  termination_z_id c = Some z →
  side_of db a = Some "A" →
  side_of db z = Some "Z" →
  form_is_valid (POST request) = true →
  post request key db = (db1, inr resp1) →
  post request key db1 = (db2, inr resp2) →
  (side_of db1 a = Some "Z" ∧ side_of db1 z = Some "A") ∧
  (∀ k, side_of db2 k = side_of db k) ∧
  ref_a db2 key = Some (Some a) ∧
  ref_z db2 key = Some (Some z).
Proof.
  intros Hc Ha Hz Sa Sz Hv H1 H2.
  rewrite (swap_twice_database request key db db1 resp1 db2 resp2 c a z)
    by done.
  split.
  - destruct (side_of_Some _ _ _ Sa) as [ra [Hra Ea]],
             (side_of_Some _ _ _ Sz) as [rz [Hrz Ez]].
    assert (a ≠ z) as Hne by (intros ->; congruence).
    destruct (post_both_success request key db db1 resp1 c a ra z rz) as [-> _];
      try done.
    unfold side_of, swapped; cbn. by simplify_map_eq.
  - unfold ref_a, ref_z. rewrite Hc. cbn. by rewrite Ha, Hz.
Qed.

Lemma swap_twice_restores_witness :
  (side_of (@post confirming confirmed 1 sample_db).1 10 = Some "Z" ∧
   side_of (@post confirming confirmed 1 sample_db).1 20 = Some "A") ∧
  (∀ k, side_of (@post confirming confirmed 1
                   (@post confirming confirmed 1 sample_db).1).1 k
        = side_of sample_db k) ∧
  ref_a (@post confirming confirmed 1
           (@post confirming confirmed 1 sample_db).1).1 1 = Some (Some 10) ∧
  ref_z (@post confirming confirmed 1
           (@post confirming confirmed 1 sample_db).1).1 1 = Some (Some 20).
Proof.
  apply (@swap_twice_restores confirming confirmed 1 sample_db
           (@post confirming confirmed 1 sample_db).1
           (swapped_response 1 sample_circuit) _
           (swapped_response 1 sample_circuit) sample_circuit 10 20);
    vm_compute; reflexivity.
Defined.

Lemma same_but_side_refl r : same_but_side r r.
Proof. by destruct r. Qed.

Lemma same_but_refs_refl c : same_but_refs c c.
Proof. by destruct c. Qed.

Lemma frame_terminations_insert (tbl tbl' : gmap Z CircuitTermination) k r side :
  tbl !! k = Some r →
  (∀ j, option_Forall2 same_but_side (tbl !! j) (tbl' !! j)) →
  ∀ j, option_Forall2 same_but_side (tbl !! j)
         (<[k := with_term_side side r]> tbl' !! j).
Proof.
  intros Hk Hrest j. destruct (decide (j = k)) as [->|]; simplify_map_eq.
  - by constructor.
  - apply Hrest.
Qed.

Lemma frame_circuits_insert (cs : gmap Z Circuit) key c c' j :
  cs !! key = Some c →
  same_but_refs c c' →
  option_Forall2 same_but_refs (cs !! j) (<[key := c']> cs !! j).
Proof.
  intros Hk Hc. destruct (decide (j = key)) as [->|]; simplify_map_eq.
  - by constructor.
  - destruct (cs !! j); constructor. apply same_but_refs_refl.
Qed.

Lemma frame_terminations_id (tbl : gmap Z CircuitTermination) j :
  option_Forall2 same_but_side (tbl !! j) (tbl !! j).
Proof. destruct (tbl !! j); constructor. apply same_but_side_refl. Qed.

Lemma frame_circuits_id (cs : gmap Z Circuit) j :
  option_Forall2 same_but_refs (cs !! j) (cs !! j).
Proof. destruct (cs !! j); constructor. apply same_but_refs_refl. Qed.

(** C7: a POST that returns normally changes nothing but labels and
    references.  Every termination row exists afterwards exactly when it
    did before and agrees with its old self on every column but term_side;
    every circuit row likewise agrees on every column but termination_a
    and termination_z; terminations the circuit does not refer to, and all
    other circuits, are untouched. *)
Theorem swap_frame `{ConfirmationForm} request key db db' resp :
  post request key db = (db', inr resp) →
  (∀ k, option_Forall2 same_but_side (terminations db !! k) (terminations db' !! k)) ∧
  (∀ k, option_Forall2 same_but_refs (circuits db !! k) (circuits db' !! k)) ∧
  (∀ k, ref_a db key ≠ Some (Some k) → ref_z db key ≠ Some (Some k) →
        terminations db' !! k = terminations db !! k) ∧
  (∀ k, k ≠ key → circuits db' !! k = circuits db !! k).
Proof.
  unfold ref_a, ref_z. run.
  destruct (circuits db !! key) as [c|] eqn:Hc; [|done].
  assert (∀ a z, same_but_refs c (with_termination_z z (with_termination_a a c)))
    as Hboth by (intros; by destruct c).
  assert (∀ a, same_but_refs c (with_termination_a a c))
    as Honly_a by (intros; by destruct c).
  assert (∀ z, same_but_refs c (with_termination_z z c))
    as Honly_z by (intros; by destruct c).
  destruct (form_is_valid (POST request)); cbn.
  - destruct (termination_a_id c) as [a|] eqn:Ha,
             (termination_z_id c) as [z|] eqn:Hz; cbn;
      try destruct (terminations db !! a) as [ra|] eqn:Hra;
      try destruct (terminations db !! z) as [rz|] eqn:Hrz; cbn.
    all: repeat (case_decide; cbn; [done|]); try done.
    all: rewrite ?Hc; cbn; intros [= <- <-]; cbn.
    all: rewrite ?with_term_side_twice.
    all: split;
      [repeat (apply frame_terminations_insert; [done|]);
       apply frame_terminations_id|].
    all: split; [intros k; eapply frame_circuits_insert; [exact Hc|auto]|].
    all: split; [intros k ? ?; rewrite ?lookup_insert_ne by congruence; done|].
    all: intros k ?; by rewrite lookup_insert_ne.
  - destruct (termination_a_id c) as [a|]; cbn;
      [destruct (terminations db !! a); cbn; [|done]|];
      (destruct (termination_z_id c) as [z|]; cbn;
       [destruct (terminations db !! z); cbn; [|done]|]).
    all: intros [= <- <-].
    all: by split_and!; auto using frame_terminations_id, frame_circuits_id.
Qed.

Lemma swap_frame_witness :
  (∀ k, option_Forall2 same_but_side (terminations sample_db !! k)
          (terminations (@post confirming confirmed 1 sample_db).1 !! k)) ∧
  (∀ k, option_Forall2 same_but_refs (circuits sample_db !! k)
          (circuits (@post confirming confirmed 1 sample_db).1 !! k)) ∧
  (∀ k, ref_a sample_db 1 ≠ Some (Some k) → ref_z sample_db 1 ≠ Some (Some k) →
        terminations (@post confirming confirmed 1 sample_db).1 !! k
        = terminations sample_db !! k) ∧
  (∀ k, k ≠ 1 → circuits (@post confirming confirmed 1 sample_db).1 !! k
                = circuits sample_db !! k).
Proof.
  apply (@swap_frame confirming confirmed 1 sample_db _
           (swapped_response 1 sample_circuit)).
  vm_compute. reflexivity.
Defined.

(** C8: on a circuit with exactly one termination, a POST with a valid
    form that returns normally leaves that termination on the opposite
    side - a lone A termination labelled 'Z', a lone Z termination
    labelled 'A' - and the reference it vacated null.  On a circuit with
    no termination, GET answers with a redirect carrying an error message
    and leaves the database as it was. *)
Theorem swap_single_termination `{ConfirmationForm} request key db c :
  circuits db !! key = Some c →
  (∀ a db' resp,
     termination_a_id c = Some a →
     is_Some (terminations db !! a) →
     resolve db (termination_z_id c) = None →
     form_is_valid (POST request) = true →
     post request key db = (db', inr resp) →
     side_of db' a = Some "Z" ∧ ref_a db' key = Some None) ∧
  (∀ z db' resp,
     resolve db (termination_a_id c) = None →
     termination_z_id c = Some z →
     is_Some (terminations db !! z) →
     form_is_valid (POST request) = true →
     post request key db = (db', inr resp) →
     side_of db' z = Some "A" ∧ ref_z db' key = Some None) ∧
  (termination_a_id c = None →
   termination_z_id c = None →
   get request key db =
     (db, inr (redirect "circuits:circuit" key
                 [(error, "No terminations have been defined for circuit "
                            +:+ cid c +:+ ".")]))).
Proof.
  intros Hc. unfold resolve, side_of, ref_a, ref_z. split_and!.
  - intros a db' resp Ha [ra Hra] Hz Hv. run.
    rewrite Hc, Hv. cbn. rewrite Ha. cbn. rewrite Hra. cbn.
    destruct (termination_z_id c) as [z|]; cbn in *; rewrite ?Hz; cbn.
    all: case_decide; cbn; [done|].
    all: rewrite Hc; cbn; intros [= <- <-]; cbn.
    all: by simplify_map_eq.
  - intros z db' resp Ha Hz [rz Hrz] Hv. run.
    rewrite Hc, Hv. cbn. rewrite Hz. cbn. rewrite Hrz. cbn.
    destruct (termination_a_id c) as [a|]; cbn in *; rewrite ?Ha; cbn.
    all: case_decide; cbn; [done|].
    all: rewrite Hc; cbn; intros [= <- <-]; cbn.
    all: by simplify_map_eq.
  - intros Ha Hz. run. rewrite Hc. cbn. rewrite Ha, Hz. by cbn.
Qed.

Lemma swap_single_termination_witness :
  (side_of (@post confirming confirmed 1 only_a_db).1 10 = Some "Z" ∧
   ref_a (@post confirming confirmed 1 only_a_db).1 1 = Some None) ∧
  (side_of (@post confirming confirmed 1 only_z_db).1 20 = Some "A" ∧
   ref_z (@post confirming confirmed 1 only_z_db).1 1 = Some None) ∧
  @get confirmed 1 bare_db =
    (bare_db, inr (redirect "circuits:circuit" 1
                     [(error, "No terminations have been defined for circuit CID-1.")])).
Proof.
  split; [|split].
  - destruct (@swap_single_termination confirming confirmed 1 only_a_db
                (with_termination_z None sample_circuit)) as (Ha & _ & _);
      [vm_compute; reflexivity|].
    eapply Ha; try (vm_compute; reflexivity).
    vm_compute; eexists; reflexivity.
  - destruct (@swap_single_termination confirming confirmed 1 only_z_db
                (with_termination_a None sample_circuit)) as (_ & Hz & _);
      [vm_compute; reflexivity|].
    eapply Hz; try (vm_compute; reflexivity).
    vm_compute; eexists; reflexivity.
  - destruct (@swap_single_termination confirming confirmed 1 bare_db
                (with_termination_a None (with_termination_z None sample_circuit)))
      as (_ & _ & Hget); [vm_compute; reflexivity|].
    apply Hget; vm_compute; reflexivity.
Defined.

(** ** The bulk-import hook *)

(** C6: the prepared data maps 'circuit' to the parent circuit and every
    other key to what the given data mapped it to; so each record of an
    import, once prepared, names the circuit it was imported under. *)
Theorem prep_related_object_data_attaches_parent
    (parent : Obj Circuit) (data : Dict) (records : list Dict) :
  CircuitBulkImportView.prep_related_object_data parent data !! "circuit"
    = Some (PyCircuit parent) ∧
  (∀ k, k ≠ "circuit" →
        CircuitBulkImportView.prep_related_object_data parent data !! k = data !! k) ∧
  Forall (λ d : Dict, d !! "circuit" = Some (PyCircuit parent))
    (CircuitBulkImportView.prep_related_object_data parent <$> records).
Proof.
  unfold CircuitBulkImportView.prep_related_object_data. split_and!.
  - by simplify_map_eq.
  - intros k Hk. by simplify_map_eq.
  - apply Forall_fmap, Forall_forall. intros d _. cbn. by simplify_map_eq.
Qed.

(** ** Token validation *)

(** C4: with a request in the serializer context, validation raises
    PermissionDenied when the data names a user, that user is not the
    requesting user, and the requesting user lacks 'users.grant_token';
    in every other case - no user given, the requesting user itself, or
    the permission held - the result is the parent validator's on the
    same data. *)
Theorem token_validate_permission `{PermissionBackend} `{ParentValidator}
    context request data :
  ctx_request context = Some request →
  let token_user := default PyNone (data !! "user") in
  let on_behalf_without_grant :=
    truthy token_user = true ∧
    differs_from token_user (user request) = true ∧
    has_perm (user request) "users.grant_token" = false in
  (on_behalf_without_grant →
   TokenSerializer.validate context data =
     inl (PermissionDenied
            "This user does not have permission to create tokens for other users.")) ∧
  (¬ on_behalf_without_grant →
   TokenSerializer.validate context data = super_validate context data) ∧
  (data !! "user" = None →
   TokenSerializer.validate context data = super_validate context data) ∧
  (∀ u, data !! "user" = Some (PyUser u) → pk u = pk (user request) →
   TokenSerializer.validate context data = super_validate context data) ∧
  (has_perm (user request) "users.grant_token" = true →
   TokenSerializer.validate context data = super_validate context data).
Proof.
  intros Hreq token_user denied. subst denied token_user.
  unfold TokenSerializer.validate. rewrite Hreq.
  split_and!.
  - intros (-> & -> & ->). done.
  - intros Hn.
    destruct (truthy _) eqn:Ht; [|done].
    destruct (differs_from _ _) eqn:Hd; [|done].
    destruct (has_perm _ _) eqn:Hp; [done|].
    by destruct Hn.
  - intros ->. done.
  - intros u -> Hpk. cbn. rewrite Hpk, Z.eqb_refl. done.
  - intros ->. rewrite andb_false_r. by destruct (truthy _).
Qed.

Lemma token_validate_permission_witness :
  @TokenSerializer.validate only_admin_grants accepting_parent
    (mkSerializerContext (Some (mkApiRequest alice))) {[ "user" := PyUser bob ]}
  = inl (PermissionDenied
           "This user does not have permission to create tokens for other users.").
Proof.
  apply (@token_validate_permission only_admin_grants accepting_parent
           (mkSerializerContext (Some (mkApiRequest alice))) (mkApiRequest alice)
           {[ "user" := PyUser bob ]}); [reflexivity|].
  vm_compute. by split_and!.
Defined.

(** C5: given data that carries a username and a password, validation
    raises AuthenticationFailed exactly when authenticating them yields no
    user; otherwise it returns the data without 'username' and 'password'
    and with 'user' set to the authenticated user, other entries as they
    were. *)
Theorem token_provision_validate `{AuthenticationBackend}
    context data username password :
  data !! "username" = Some username →
  data !! "password" = Some password →
  ((∃ detail, TokenProvisionSerializer.validate context data
               = inl (AuthenticationFailed detail)) ↔
   authenticate (ctx_request context) username password = None) ∧
  (∀ user,
     authenticate (ctx_request context) username password = Some user →
     ∃ validated,
       TokenProvisionSerializer.validate context data = inr validated ∧
       validated = <["user" := PyUser user]> (delete "password" (delete "username" data)) ∧
       validated !! "username" = None ∧
       validated !! "password" = None ∧
       validated !! "user" = Some (PyUser user) ∧
       ∀ k, k ≠ "username" → k ≠ "password" → k ≠ "user" →
            validated !! k = data !! k).
Proof.
  intros Hu Hp. unfold TokenProvisionSerializer.validate.
  rewrite Hu. rewrite lookup_delete_ne by done. rewrite Hp.
  split.
  - destruct (authenticate _ _ _); split; try done; [by intros [? ?]|eauto].
  - intros u ->. eexists. split_and!; try done.
    + by rewrite lookup_insert_ne, lookup_delete_ne, lookup_delete_eq.
    + by rewrite lookup_insert_ne, lookup_delete_eq.
    + by rewrite lookup_insert_eq.
    + intros k ? ? ?. by rewrite lookup_insert_ne, !lookup_delete_ne.
Qed.

Lemma token_provision_validate_witness :
  @TokenProvisionSerializer.validate one_account
    (mkSerializerContext None)
    {[ "username" := PyStr "alice"; "password" := PyStr "correct horse";
       "description" := PyStr "ci" ]}
  = inr {[ "user" := PyUser alice; "description" := PyStr "ci" ]}.
Proof.
  destruct (@token_provision_validate one_account (mkSerializerContext None)
              {[ "username" := PyStr "alice"; "password" := PyStr "correct horse";
                 "description" := PyStr "ci" ]}
              (PyStr "alice") (PyStr "correct horse"))
    as [_ Hok]; [vm_compute; reflexivity..|].
  destruct (Hok alice) as (validated & -> & -> & _); [vm_compute; reflexivity|].
  vm_compute. reflexivity.
Defined.

(** ** The token key *)

Lemma run_validators_key_inr value value' :
  run_validators TokenSerializer.key value = inr value' ↔
  value' = value ∧ len value = 40%nat ∧
  has_null value = false ∧ has_surrogate value = false.
Proof.
  unfold run_validators, validators.
  cbn [TokenSerializer.key max_length min_length app omap list_omap].
  destruct (Nat.ltb_spec 40 (len value)), (Nat.ltb_spec (len value) 40),
    (has_null value), (has_surrogate value).
  all: split; [intros Heq; simplify_eq|intros (-> & ? & ? & ?)];
    try done; try lia.
  split_and!; try done; lia.
Qed.

Lemma key_run_validation v result :
  run_validation TokenSerializer.key (Some v) = inr result →
  ∃ k, result = Some k ∧ (k = "" ∨ len k = 40%nat) ∧
       (is_blank TokenSerializer.key v = false → k = strip (str v)).
Proof.
  unfold run_validation.
  destruct (is_blank TokenSerializer.key v) eqn:Hb; cbn.
  - intros [= <-]. exists "". split_and!; [done|by left|done].
  - destruct v as [|b|n|s|u|c]; cbn; try done.
    + destruct (run_validators _ _) as [e|k] eqn:Hk; [done|].
      intros [= <-]. apply run_validators_key_inr in Hk as (-> & Hlen & _).
      exists (strip (pretty n)). split_and!; [done|by right|done].
    + destruct (run_validators _ _) as [e|k] eqn:Hk; [done|].
      intros [= <-]. apply run_validators_key_inr in Hk as (-> & Hlen & _).
      exists (strip s). split_and!; [done|by right|done].
Qed.

(** X16: whatever to_internal_value accepts carries a key that is either
    blank or exactly 40 characters long.  When the data has no 'key'
    entry the key is the generated one with surrounding whitespace
    removed; a supplied key that is not blank is kept, trimmed, only at
    length 40. *)
Theorem accepted_key_blank_or_40 `{OtherFields} generated_key data validated :
  TokenSerializer.to_internal_value generated_key data = inr validated →
  ∃ k, validated !! "key" = Some (PyStr k) ∧
       (k = "" ∨ len k = 40%nat) ∧
       (data !! "key" = None → k = strip generated_key) ∧
       (∀ v, data !! "key" = Some v → is_blank TokenSerializer.key v = false →
             k = strip (str v) ∧ len k = 40%nat).
Proof.
  unfold TokenSerializer.to_internal_value, serializer_to_internal_value.
  destruct (data !! "key") as [v|] eqn:Hkey.
  - rewrite Hkey.
    destruct (run_validation _ _) as [e|result] eqn:Hrun;
      [by destruct (other_fields_to_internal_value _)|].
    apply key_run_validation in Hrun as (k & -> & Hlen & Hk).
    destruct (other_fields_to_internal_value data) as [e|ret]; [done|].
    intros [= <-]. exists k. split_and!; [by simplify_map_eq|done|done|].
    intros ? [= <-] Hb. split; [by apply Hk|].
    destruct Hlen as [->|]; [|done].
    exfalso. specialize (Hk Hb). unfold is_blank in Hb.
    rewrite <- Hk in Hb. cbn in Hb. by rewrite orb_true_r in Hb.
  - rewrite lookup_insert_eq.
    destruct (run_validation _ _) as [e|result] eqn:Hrun;
      [by destruct (other_fields_to_internal_value _)|].
    pose proof Hrun as Hrun'.
    apply key_run_validation in Hrun as (k & -> & Hlen & Hk).
    destruct (other_fields_to_internal_value _) as [e|ret]; [done|].
    intros [= <-]. exists k. split_and!; [by simplify_map_eq|done| |done].
    intros _. revert Hrun' Hk. unfold run_validation.
    destruct (is_blank _ _) eqn:Hb; cbn.
    + intros [= <-] _. unfold is_blank in Hb.
      cbn [str TokenSerializer.key trim_whitespace] in Hb.
      destruct (String.eqb_spec generated_key "") as [->|_]; [done|].
      cbn [orb andb] in Hb. by apply String.eqb_eq in Hb.
    + intros _ Hk. by apply Hk.
Qed.

Lemma accepted_key_blank_or_40_witness :
  ∃ k, ({[ "key" := PyStr sample_key ]} : Dict) !! "key" = Some (PyStr k) ∧
       (k = "" ∨ len k = 40%nat) ∧
       (({[ "key" := PyStr (" " +:+ sample_key +:+ "  ") ]} : Dict) !! "key" = None →
        k = strip "ignored") ∧
       (∀ v, ({[ "key" := PyStr (" " +:+ sample_key +:+ "  ") ]} : Dict) !! "key" = Some v →
             is_blank TokenSerializer.key v = false →
             k = strip (str v) ∧ len k = 40%nat).
Proof.
  apply (@accepted_key_blank_or_40 no_other_fields "ignored"
           {[ "key" := PyStr (" " +:+ sample_key +:+ "  ") ]}).
  vm_compute. reflexivity.
Defined.

(** The field lets a blank key through: the length validators do not run
    on it. *)
Example blank_key_passes_the_field :
  @TokenSerializer.to_internal_value no_other_fields sample_key
    {[ "key" := PyStr "" ]}
  = inr {[ "key" := PyStr "" ]}.
Proof. vm_compute. reflexivity. Qed.

(** ** Further properties of the swap views *)

Lemma resolve_instance_of db ref :
  resolve db ref = None ↔ instance_of db ref = None.
Proof.
  unfold resolve, instance_of. destruct ref as [k|]; cbn; [|done].
  by destruct (terminations db !! k).
Qed.

Lemma post_unfold_valid `{ConfirmationForm} request key db c :
  circuits db !! key = Some c →
  form_is_valid (POST request) = true →
  post request key db =
    let branch :=
      match instance_of db (termination_a_id c), instance_of db (termination_z_id c) with
      | Some termination_a, Some termination_z =>
          atomic (swap_both (mkObj key c) termination_a termination_z)
      | Some termination_a, None => swap_only_a (mkObj key c) termination_a
      | None, termination_z => swap_only_z (mkObj key c) termination_z
      end in
    match branch db with
    | (db', inr circuit) =>
        (db', inr (redirect "circuits:circuit" (pk circuit)
                     [(success, "Swapped terminations for circuit "
                                  +:+ str_circuit circuit +:+ ".")]))
    | (db', inl e) => (db', inl e)
    end.
Proof.
  intros Hc Hv.
  unfold post, get_object_or_404, filter_pk_first, instance_of,
    mbind, mret, M_bind, M_ret, bind, ret.
  rewrite Hc, Hv. cbn.
  destruct (termination_a_id c) as [a|]; cbn;
    [destruct (terminations db !! a); cbn|];
    (destruct (termination_z_id c) as [z|]; cbn;
     [by destruct (terminations db !! z)|done]).
Qed.

Lemma post_only_a_cases `{ConfirmationForm} request key db c a ra :
  circuits db !! key = Some c →
  termination_a_id c = Some a →
  terminations db !! a = Some ra →
  resolve db (termination_z_id c) = None →
  form_is_valid (POST request) = true →
  post request key db = (swapped_only_a db key c a ra, inr (swapped_response key c)) ∨
  post request key db = (db, inl IntegrityError).
Proof.
  intros Hc Ha Hra Hz%resolve_instance_of Hv.
  rewrite (post_unfold_valid request key db c) by done.
  rewrite Hz. unfold instance_of. rewrite Ha. cbn. rewrite Hra. cbn.
  run. case_decide; cbn; [by right|]. rewrite Hc. by left.
Qed.

Lemma post_only_z_cases `{ConfirmationForm} request key db c z rz :
  circuits db !! key = Some c →
  resolve db (termination_a_id c) = None →
  termination_z_id c = Some z →
  terminations db !! z = Some rz →
  form_is_valid (POST request) = true →
  post request key db = (swapped_only_z db key c z rz, inr (swapped_response key c)) ∨
  post request key db = (db, inl IntegrityError).
Proof.
  intros Hc Ha%resolve_instance_of Hz Hrz Hv.
  rewrite (post_unfold_valid request key db c) by done.
  rewrite Ha. unfold instance_of. rewrite Hz. cbn. rewrite Hrz. cbn.
  run. case_decide; cbn; [by right|]. rewrite Hc. by left.
Qed.

Lemma post_no_termination `{ConfirmationForm} request key db c :
  circuits db !! key = Some c →
  resolve db (termination_a_id c) = None →
  resolve db (termination_z_id c) = None →
  form_is_valid (POST request) = true →
  post request key db = (db, inl AttributeError).
Proof.
  intros Hc Ha%resolve_instance_of Hz%resolve_instance_of Hv.
  rewrite (post_unfold_valid request key db c) by done.
  by rewrite Ha, Hz.
Qed.

Lemma render_swap_run db key c panel :
  render_swap (mkObj key c) panel db =
    match termination_a_id c, termination_z_id c with
    | Some a, _ =>
        if terminations db !! a is Some _ then
          if termination_z_id c is Some z then
            if terminations db !! z is Some _ then (db, inr (swap_page db key c panel))
            else (db, inl DoesNotExist)
          else (db, inr (swap_page db key c panel))
        else (db, inl DoesNotExist)
    | None, Some z =>
        if terminations db !! z is Some _ then (db, inr (swap_page db key c panel))
        else (db, inl DoesNotExist)
    | None, None => (db, inr (swap_page db key c panel))
    end.
Proof.
  unfold swap_page, instance_of. run.
  destruct (termination_a_id c) as [a|]; cbn;
    [destruct (terminations db !! a); cbn; [|done]|];
    (destruct (termination_z_id c) as [z|]; cbn;
     [by destruct (terminations db !! z)|done]).
Qed.

Lemma resolve_cases db ref :
  (∃ k r, ref = Some k ∧ terminations db !! k = Some r) ∨ resolve db ref = None.
Proof.
  unfold resolve. destruct ref as [k|]; cbn; [|by right].
  destruct (terminations db !! k) as [r|] eqn:Hr; [left; eauto|by right].
Qed.

(** Every way a POST with a valid form on an existing circuit can end. *)
Lemma post_valid_outcomes `{ConfirmationForm} request key db c :
  circuits db !! key = Some c →
  form_is_valid (POST request) = true →
  (∃ a ra z rz,
     termination_a_id c = Some a ∧ terminations db !! a = Some ra ∧
     termination_z_id c = Some z ∧ terminations db !! z = Some rz ∧
     post request key db = (swapped db key c a ra z rz, inr (swapped_response key c))) ∨
  (∃ a ra,
     termination_a_id c = Some a ∧ terminations db !! a = Some ra ∧
     resolve db (termination_z_id c) = None ∧
     post request key db = (swapped_only_a db key c a ra, inr (swapped_response key c))) ∨
  (∃ z rz,
     resolve db (termination_a_id c) = None ∧
     termination_z_id c = Some z ∧ terminations db !! z = Some rz ∧
     post request key db = (swapped_only_z db key c z rz, inr (swapped_response key c))) ∨
  ((is_Some (resolve db (termination_a_id c)) ∨ is_Some (resolve db (termination_z_id c))) ∧
   post request key db = (db, inl IntegrityError)) ∨
  (resolve db (termination_a_id c) = None ∧ resolve db (termination_z_id c) = None ∧
   post request key db = (db, inl AttributeError)).
Proof.
  intros Hc Hv.
  destruct (resolve_cases db (termination_a_id c)) as [(a & ra & Ha & Hra)|Ha],
           (resolve_cases db (termination_z_id c)) as [(z & rz & Hz & Hrz)|Hz].
  - destruct (post_both_cases request key db c a ra z rz) as [E|E]; try done.
    + left. by exists a, ra, z, rz.
    + do 3 right. left. split; [|done]. left. rewrite Ha. cbn. by rewrite Hra.
  - destruct (post_only_a_cases request key db c a ra) as [E|E]; try done.
    + right. left. by exists a, ra.
    + do 3 right. left. split; [|done]. left. rewrite Ha. cbn. by rewrite Hra.
  - destruct (post_only_z_cases request key db c z rz) as [E|E]; try done.
    + do 2 right. left. by exists z, rz.
    + do 3 right. left. split; [|done]. right. rewrite Hz. cbn. by rewrite Hrz.
  - do 4 right. split_and!; try done. by apply (post_no_termination _ _ _ c).
Qed.

Lemma post_unfold_invalid `{ConfirmationForm} request key db c :
  circuits db !! key = Some c →
  form_is_valid (POST request) = false →
  post request key db = render_swap (mkObj key c) "default" db.
Proof.
  intros Hc Hv.
  unfold post, get_object_or_404, mbind, M_bind, bind. by rewrite Hc, Hv.
Qed.

Lemma render_swap_outcomes db key c panel :
  render_swap (mkObj key c) panel db = (db, inr (swap_page db key c panel)) ∨
  render_swap (mkObj key c) panel db = (db, inl DoesNotExist).
Proof.
  rewrite render_swap_run.
  destruct (termination_a_id c) as [a|];
    [destruct (terminations db !! a)|];
    (destruct (termination_z_id c) as [z|];
     [destruct (terminations db !! z)|]); auto.
Qed.

Lemma get_run request key db c :
  circuits db !! key = Some c →
  get request key db =
    match termination_a_id c with
    | Some a =>
        if terminations db !! a is Some _
        then render_swap (mkObj key c) "light" db
        else (db, inl DoesNotExist)
    | None =>
        match termination_z_id c with
        | Some z =>
            if terminations db !! z is Some _
            then render_swap (mkObj key c) "light" db
            else (db, inl DoesNotExist)
        | None => (db, inr (no_terminations_response key c))
        end
    end.
Proof.
  intros Hc.
  unfold get, get_object_or_404, related, mbind, mret, M_bind, M_ret, bind, ret.
  rewrite Hc. cbn -[render_swap].
  destruct (termination_a_id c) as [a|]; cbn -[render_swap].
  - by destruct (terminations db !! a).
  - destruct (termination_z_id c) as [z|]; cbn -[render_swap]; [|done].
    by destruct (terminations db !! z).
Qed.

(** X1: GET is read-only: whatever it answers or raises, the database it
    leaves is the one it was given. *)
Theorem get_leaves_database request key db :
  (get request key db).1 = db.
Proof.
  destruct (circuits db !! key) as [c|] eqn:Hc.
  - rewrite (get_run request key db c Hc).
    destruct (termination_a_id c) as [a|];
      [destruct (terminations db !! a)|
       destruct (termination_z_id c) as [z|];
       [destruct (terminations db !! z)|]]; try done.
    all: by destruct (render_swap_outcomes db key c "light") as [->| ->].
  - unfold get, get_object_or_404, mbind, M_bind, bind. by rewrite Hc.
Qed.

(** X2: on an existing circuit none of whose references dangles, GET
    answers the error redirect when both references are null and the
    confirmation page, panel 'light', in every other case. *)
Theorem get_page_or_redirect request key db c :
  circuits db !! key = Some c →
  no_dangling db c →
  get request key db =
    (db, inr (if bool_decide (termination_a_id c = None ∧ termination_z_id c = None)
              then no_terminations_response key c
              else swap_page db key c "light")).
Proof.
  intros Hc [Hda Hdz].
  rewrite (get_run request key db c Hc), render_swap_run. unfold resolve in *.
  case_bool_decide as Hb.
  - by destruct Hb as [-> ->].
  - destruct (termination_a_id c) as [a|]; cbn in *.
    + destruct Hda as [|[ra ->]]; [done|].
      destruct (termination_z_id c) as [z|]; cbn in *; [|done].
      destruct Hdz as [|[rz ->]]; done.
    + destruct (termination_z_id c) as [z|]; cbn in *; [|by destruct Hb].
      destruct Hdz as [|[rz ->]]; done.
Qed.

Lemma get_page_or_redirect_witness :
  @get confirmed 1 only_z_db = (only_z_db, inr (swap_page only_z_db 1
                                  (with_termination_a None sample_circuit) "light")).
Proof.
  apply (get_page_or_redirect confirmed 1 only_z_db
           (with_termination_a None sample_circuit)).
  - vm_compute. reflexivity.
  - split; [by left|right]. vm_compute. eexists. reflexivity.
Defined.

(** X3: a POST whose form does not validate writes nothing; on an existing
    circuit none of whose references dangles it answers the confirmation
    page again, panel 'default'. *)
Theorem post_invalid_form `{ConfirmationForm} request key db :
  form_is_valid (POST request) = false →
  (post request key db).1 = db ∧
  (∀ c, circuits db !! key = Some c → no_dangling db c →
        post request key db = (db, inr (swap_page db key c "default"))).
Proof.
  intros Hv. split.
  - destruct (circuits db !! key) as [c|] eqn:Hc.
    + rewrite (post_unfold_invalid request key db c) by done.
      by destruct (render_swap_outcomes db key c "default") as [->| ->].
    + unfold post, get_object_or_404, mbind, M_bind, bind. by rewrite Hc.
  - intros c Hc [Hda Hdz].
    rewrite (post_unfold_invalid request key db c) by done.
    rewrite render_swap_run. unfold resolve in *.
    destruct (termination_a_id c) as [a|]; cbn in *.
    + destruct Hda as [|[ra ->]]; [done|].
      destruct (termination_z_id c) as [z|]; cbn in *; [|done].
      destruct Hdz as [|[rz ->]]; done.
    + destruct (termination_z_id c) as [z|]; cbn in *; [|done].
      destruct Hdz as [|[rz ->]]; done.
Qed.

Lemma post_invalid_form_witness :
  (@post confirming unconfirmed 1 sample_db).1 = sample_db ∧
  @post confirming unconfirmed 1 sample_db
  = (sample_db, inr (swap_page sample_db 1 sample_circuit "default")).
Proof.
  destruct (@post_invalid_form confirming unconfirmed 1 sample_db) as [Hdb Hpage];
    [vm_compute; reflexivity|].
  split; [exact Hdb|]. apply Hpage; [vm_compute; reflexivity|].
  split; right; vm_compute; eexists; reflexivity.
Defined.

(** X4: on an existing circuit, a POST with a valid form raises
    AttributeError exactly when neither reference resolves to a
    termination, and then writes nothing: the guard GET applies to such a
    circuit is missing from POST. *)
Theorem post_without_termination `{ConfirmationForm} request key db c :
  circuits db !! key = Some c →
  form_is_valid (POST request) = true →
  ((post request key db).2 = inl AttributeError ↔
   resolve db (termination_a_id c) = None ∧ resolve db (termination_z_id c) = None) ∧
  ((post request key db).2 = inl AttributeError → (post request key db).1 = db).
Proof.
  intros Hc Hv.
  destruct (post_valid_outcomes request key db c Hc Hv)
    as [(a & ra & z & rz & Ha & Hra & Hz & Hrz & ->)
       |[(a & ra & Ha & Hra & Hz & ->)
        |[(z & rz & Ha & Hz & Hrz & ->)
         |[(Hsome & ->)|(Ha & Hz & ->)]]]]; cbn.
  - split; [|done]. split; [done|]. intros [Hn _]. revert Hn.
    rewrite Ha. cbn. by rewrite Hra.
  - split; [|done]. split; [done|]. intros [Hn _]. revert Hn.
    rewrite Ha. cbn. by rewrite Hra.
  - split; [|done]. split; [done|]. intros [_ Hn]. revert Hn.
    rewrite Hz. cbn. by rewrite Hrz.
  - split; [|done]. split; [done|]. intros [Hna Hnz].
    destruct Hsome as [[? Hs]|[? Hs]]; congruence.
  - done.
Qed.

Lemma post_without_termination_witness :
  @post confirming confirmed 1 bare_db = (bare_db, inl AttributeError).
Proof.
  destruct (@post_without_termination confirming confirmed 1 bare_db
              (with_termination_a None (with_termination_z None sample_circuit)))
    as [[_ Hraise] Hdb]; [vm_compute; reflexivity..|].
  rewrite (surjective_pairing (post _ _ _)).
  assert ((@post confirming confirmed 1 bare_db).2 = inl AttributeError) as Hr
    by (apply Hraise; vm_compute; done).
  by rewrite Hdb, Hr.
Defined.

(** X5: a POST that raises leaves the database as it found it.  It raises
    Http404 exactly when the circuit does not exist, and otherwise one of
    DoesNotExist (a dangling reference met while rendering),
    IntegrityError (a relabelling the unique constraint rejects) or
    AttributeError (no termination to relabel). *)
Theorem post_failure_leaves_database `{ConfirmationForm} request key db db' e :
  post request key db = (db', inl e) →
  db' = db ∧
  (e = Http404 ↔ circuits db !! key = None) ∧
  (e = Http404 ∨ e = DoesNotExist ∨ e = IntegrityError ∨ e = AttributeError).
Proof.
  destruct (circuits db !! key) as [c|] eqn:Hc.
  - destruct (form_is_valid (POST request)) eqn:Hv.
    + destruct (post_valid_outcomes request key db c Hc Hv)
        as [(a & ra & z & rz & _ & _ & _ & _ & ->)
           |[(a & ra & _ & _ & _ & ->)
            |[(z & rz & _ & _ & _ & ->)
             |[(_ & ->)|(_ & _ & ->)]]]];
        intros [= <- <-] || intros [=]; split_and!; auto; by split.
    + rewrite (post_unfold_invalid request key db c) by done.
      destruct (render_swap_outcomes db key c "default") as [->| ->];
        intros [= <- <-]; split_and!; auto; by split.
  - unfold post, get_object_or_404, mbind, M_bind, bind. rewrite Hc.
    intros [= <- <-]. split_and!; auto; by split.
Qed.

Lemma post_failure_leaves_database_witness :
  crossed_db = crossed_db ∧
  (IntegrityError = Http404 ↔ circuits crossed_db !! 1 = None) ∧
  (IntegrityError = Http404 ∨ IntegrityError = DoesNotExist ∨
   IntegrityError = IntegrityError ∨ IntegrityError = AttributeError).
Proof.
  apply (@post_failure_leaves_database confirming confirmed 1 crossed_db).
  vm_compute. reflexivity.
Defined.

(** X6: on an existing circuit, a POST with a valid form that returns
    normally answers a redirect to the circuit's own page with a single
    success message naming the circuit. *)
Theorem post_success_response `{ConfirmationForm} request key db db' resp c :
  circuits db !! key = Some c →
  form_is_valid (POST request) = true →
  post request key db = (db', inr resp) →
  resp = redirect "circuits:circuit" key
           [(success, "Swapped terminations for circuit " +:+ cid c +:+ ".")] ∧
  cid <$> circuits db' !! key = Some (cid c).
Proof.
  intros Hc Hv.
  destruct (post_valid_outcomes request key db c Hc Hv)
    as [(a & ra & z & rz & _ & _ & _ & _ & ->)
       |[(a & ra & _ & _ & _ & ->)
        |[(z & rz & _ & _ & _ & ->)
         |[(_ & ->)|(_ & _ & ->)]]]];
    intros [= <- <-] || intros [=]; (split; [done|]); cbn;
    by rewrite lookup_insert_eq.
Qed.

Lemma post_success_response_witness :
  swapped_response 1 (with_termination_z None sample_circuit)
  = redirect "circuits:circuit" 1
      [(success, "Swapped terminations for circuit CID-1.")] ∧
  cid <$> circuits (@post confirming confirmed 1 only_a_db).1 !! 1 = Some "CID-1".
Proof.
  apply (@post_success_response confirming confirmed 1 only_a_db
           (@post confirming confirmed 1 only_a_db).1
           (swapped_response 1 (with_termination_z None sample_circuit))
           (with_termination_z None sample_circuit));
    vm_compute; reflexivity.
Defined.









Lemma names_Some db key k side :
  names db key (Some k) side →
  ∃ r, terminations db !! k = Some r ∧ circuit_id r = key ∧ term_side r = side.
Proof.
  unfold names. destruct (terminations db !! k) as [r|]; [|done].
  intros [? ?]. eauto.
Qed.

Lemma names_unresolved db key ref side :
  names db key ref side → resolve db ref = None → ref = None.
Proof.
  unfold names, resolve. destruct ref as [k|]; [|done]. cbn.
  by destruct (terminations db !! k).
Qed.

(** A reference of another circuit is not affected by rewriting rows of
    circuit [key]. *)
Lemma names_other db db' key key' ref side :
  names db key' ref side →
  key' ≠ key →
  (∀ k, terminations db' !! k = terminations db !! k ∨
        ∃ r, terminations db !! k = Some r ∧ circuit_id r = key) →
  names db' key' ref side.
Proof.
  destruct ref as [k|]; [|done].
  intros (r & Hr & Hcid & Hside)%names_Some Hne Hrows.
  unfold names. destruct (Hrows k) as [->|(r' & Hr' & Hcid')].
  - by rewrite Hr.
  - congruence.
Qed.

(** X8: POST keeps the references consistent: if every circuit's A
    reference is null or names one of its own terminations labelled 'A',
    and likewise for Z, the same holds of the database POST leaves,
    whether it returned or raised. *)
Theorem post_keeps_references_consistent `{ConfirmationForm} request key db :
  references_consistent db →
  references_consistent (post request key db).1.
Proof.
  intros Hcons.
  destruct (circuits db !! key) as [c|] eqn:Hc; cycle 1.
  { unfold post, get_object_or_404, mbind, M_bind, bind. by rewrite Hc. }
  destruct (form_is_valid (POST request)) eqn:Hv; cycle 1.
  { rewrite (post_unfold_invalid request key db c) by done.
    by destruct (render_swap_outcomes db key c "default") as [->| ->]. }
  destruct (Hcons key c Hc) as [Na Nz].
  destruct (post_valid_outcomes request key db c Hc Hv)
    as [(a & ra & z & rz & Ha & Hra & Hz & Hrz & ->)
       |[(a & ra & Ha & Hra & Hz & ->)
        |[(z & rz & Ha & Hz & Hrz & ->)
         |[(_ & ->)|(_ & _ & ->)]]]]; try done; cbn.
  - rewrite Ha in Na. rewrite Hz in Nz.
    apply names_Some in Na as (ra' & Hra' & Ca & Sa).
    apply names_Some in Nz as (rz' & Hrz' & Cz & Sz).
    rewrite Hra in Hra'. injection Hra' as <-.
    rewrite Hrz in Hrz'. injection Hrz' as <-.
    assert (a ≠ z) as Hne by (intros ->; congruence).
    intros key' c' Hc'. cbn in Hc'.
    destruct (decide (key' = key)) as [->|Hk].
    + rewrite lookup_insert_eq in Hc'. injection Hc' as <-.
      unfold names; cbn. by simplify_map_eq.
    + rewrite lookup_insert_ne in Hc' by done.
      destruct (Hcons key' c' Hc') as [Na' Nz'].
      split; (eapply names_other; [eassumption|exact Hk|]); intros k; cbn.
      all: destruct (decide (k = a)) as [->|]; [right; eauto|].
      all: destruct (decide (k = z)) as [->|]; [right; eauto|].
      all: left; by simplify_map_eq.
  - rewrite Ha in Na.
    apply names_Some in Na as (ra' & Hra' & Ca & Sa).
    rewrite Hra in Hra'. injection Hra' as <-.
    apply (names_unresolved _ _ _ _ Nz) in Hz.
    intros key' c' Hc'. cbn in Hc'.
    destruct (decide (key' = key)) as [->|Hk].
    + rewrite lookup_insert_eq in Hc'. injection Hc' as <-.
      unfold names; cbn. by rewrite Hz.
    + rewrite lookup_insert_ne in Hc' by done.
      destruct (Hcons key' c' Hc') as [Na' Nz'].
      split; (eapply names_other; [eassumption|exact Hk|]); intros k; cbn.
      all: destruct (decide (k = a)) as [->|]; [right; eauto|].
      all: left; by simplify_map_eq.
  - rewrite Hz in Nz.
    apply names_Some in Nz as (rz' & Hrz' & Cz & Sz).
    rewrite Hrz in Hrz'. injection Hrz' as <-.
    apply (names_unresolved _ _ _ _ Na) in Ha.
    intros key' c' Hc'. cbn in Hc'.
    destruct (decide (key' = key)) as [->|Hk].
    + rewrite lookup_insert_eq in Hc'. injection Hc' as <-.
      unfold names; cbn. by rewrite Ha.
    + rewrite lookup_insert_ne in Hc' by done.
      destruct (Hcons key' c' Hc') as [Na' Nz'].
      split; (eapply names_other; [eassumption|exact Hk|]); intros k; cbn.
      all: destruct (decide (k = z)) as [->|]; [right; eauto|].
      all: left; by simplify_map_eq.
Qed.

Lemma post_keeps_references_consistent_witness :
  references_consistent (@post confirming confirmed 1 sample_db).1.
Proof.
  apply (@post_keeps_references_consistent confirming confirmed 1 sample_db).
  apply (bool_decide_unpack _). vm_compute. exact I.
Defined.

(** ** Further properties of the serializers and of the import hook *)

(** X9: TokenProvisionSerializer.validate raises KeyError exactly when the
    data lacks 'username' or 'password' - 'username' is looked for first -
    and raises nothing but these two KeyErrors and AuthenticationFailed:
    in particular the grant_token check of the parent class is never
    applied. *)
Theorem token_provision_validate_errors `{AuthenticationBackend} context data :
  ((∃ k, TokenProvisionSerializer.validate context data = inl (KeyError k)) ↔
   data !! "username" = None ∨ data !! "password" = None) ∧
  (data !! "username" = None →
   TokenProvisionSerializer.validate context data = inl (KeyError "username")) ∧
  (∀ e, TokenProvisionSerializer.validate context data = inl e →
        e = KeyError "username" ∨ e = KeyError "password" ∨
        e = AuthenticationFailed "Invalid username/password").
Proof.
  unfold TokenProvisionSerializer.validate.
  destruct (data !! "username") as [u|] eqn:Hu.
  - rewrite lookup_delete_ne by done.
    destruct (data !! "password") as [p|] eqn:Hp.
    + destruct (authenticate _ _ _).
      * split; [split; [by intros [? ?]|by intros [|]]|]. by split.
      * split; [split; [by intros [? ?]|by intros [|]]|].
        split; [done|]. intros e [= <-]. auto.
    + split; [split; [auto|eauto]|].
      split; [done|]. intros e [= <-]. auto.
  - split; [split; [auto|eauto]|].
    split; [done|]. intros e [= <-]. auto.
Qed.

(** X10: a 'user' entry supplied in the data has no effect on
    TokenProvisionSerializer.validate: the outcome is the one for the data
    without it, so the token's user is always the authenticated one. *)
Theorem token_provision_validate_ignores_user `{AuthenticationBackend}
    context (data : Dict) (v : Value) :
  TokenProvisionSerializer.validate context (<["user" := v]> data)
  = TokenProvisionSerializer.validate context data.
Proof.
  unfold TokenProvisionSerializer.validate.
  rewrite lookup_insert_ne by done.
  destruct (data !! "username") as [u|]; [|done].
  rewrite !lookup_delete_ne by done. rewrite lookup_insert_ne by done.
  destruct (data !! "password") as [p|]; [|done].
  destruct (authenticate _ _ _); [|done].
  by rewrite !delete_insert_ne, insert_insert_eq by done.
Qed.

(** X11: when the serializer context carries no request,
    TokenSerializer.validate raises AttributeError for data that names a
    user, and hands data that names none to the parent validator. *)
Theorem token_validate_without_request `{PermissionBackend} `{ParentValidator}
    context data :
  ctx_request context = None →
  (truthy (default PyNone (data !! "user")) = true →
   TokenSerializer.validate context data = inl AttributeError) ∧
  (truthy (default PyNone (data !! "user")) = false →
   TokenSerializer.validate context data = super_validate context data).
Proof.
  intros Hreq. unfold TokenSerializer.validate. rewrite Hreq.
  split; by intros ->.
Qed.

Lemma token_validate_without_request_witness :
  @TokenSerializer.validate only_admin_grants accepting_parent
    (mkSerializerContext None) {[ "user" := PyUser bob ]} = inl AttributeError.
Proof.
  apply (@token_validate_without_request only_admin_grants accepting_parent
           (mkSerializerContext None) {[ "user" := PyUser bob ]});
    reflexivity.
Defined.

(** X12: the import hook overrides whatever circuit the record named, and
    of two applications the outer parent wins; in particular it is
    idempotent. *)
Theorem prep_related_object_data_overrides
    (parent parent' : Obj Circuit) (data : Dict) (v : Value) :
  CircuitBulkImportView.prep_related_object_data parent (<["circuit" := v]> data)
  = CircuitBulkImportView.prep_related_object_data parent data ∧
  CircuitBulkImportView.prep_related_object_data parent
    (CircuitBulkImportView.prep_related_object_data parent' data)
  = CircuitBulkImportView.prep_related_object_data parent data.
Proof.
  unfold CircuitBulkImportView.prep_related_object_data.
  by rewrite !insert_insert_eq.
Qed.

(** X13: UserSerializer.create raises KeyError and leaves the user table
    alone when the validated data has no 'password'.  Otherwise the parent
    create receives the data without the password, its error is passed
    on, and the user it returns is saved with the hash of the supplied
    password, every other column and every other row as the parent left
    them. *)
Theorem user_create_password `{PasswordHasher} `{ParentCreate} data users :
  (data !! "password" = None →
   UserSerializer.create data users = (users, inl (KeyError "password"))) ∧
  (∀ raw users' e,
     data !! "password" = Some raw →
     super_create (delete "password" data) users = (users', inl e) →
     UserSerializer.create data users = (users', inl e)) ∧
  (∀ raw users' user,
     data !! "password" = Some raw →
     super_create (delete "password" data) users = (users', inr user) →
     ∃ users'' saved,
       UserSerializer.create data users = (users'', inr (mkObj (pk user) saved)) ∧
       users'' !! pk user = Some saved ∧
       password saved = make_password raw ∧
       user_fields saved = user_fields (fields user) ∧
       ∀ k, k ≠ pk user → users'' !! k = users' !! k).
Proof.
  unfold UserSerializer.create. split_and!.
  - by intros ->.
  - intros raw users' e -> ->. done.
  - intros raw users' user -> ->. eexists _, _. split_and!; try done.
    + by rewrite lookup_insert_eq.
    + intros k Hk. by rewrite lookup_insert_ne.
Qed.

Lemma user_create_password_witness :
  ∃ users'' saved,
    @UserSerializer.create tagging_hasher storing_parent
      {[ "username" := PyStr "carol"; "password" := PyStr "s3cret" ]} ∅
    = (users'', inr (mkObj 1 saved)) ∧
    users'' !! 1 = Some saved ∧
    password saved = "hash:s3cret" ∧
    user_fields saved = mkUser "carol" true ∧
    ∀ k, k ≠ 1 → users'' !! k = None.
Proof.
  destruct (@user_create_password tagging_hasher storing_parent
              {[ "username" := PyStr "carol"; "password" := PyStr "s3cret" ]} ∅)
    as (_ & _ & Hok).
  destruct (Hok (PyStr "s3cret") {[ 1 := mkUserRow (mkUser "carol" true) "" ]}
              (mkObj 1 (mkUserRow (mkUser "carol" true) "")))
    as (users'' & saved & Hrun & Hsaved & Hpw & Hfields & Hrest);
    [vm_compute; reflexivity..|].
  exists users'', saved. split_and!; try done.
  intros k Hk. rewrite (Hrest k Hk). by apply lookup_singleton_ne.
Defined.

Lemma hexdigit_width c : is_hexdigit c = true → width c = 1%nat.
Proof.
  destruct c as [[] [] [] [] [] [] [] []]; vm_compute; congruence.
Qed.

Lemma hexdigit_not_space c : is_hexdigit c = true → isspace (code_point [c]) = false.
Proof.
  destruct c as [[] [] [] [] [] [] [] []]; vm_compute; congruence.
Qed.

Lemma hexdigit_not_null c : is_hexdigit c = true → Nat.eqb (nat_of_ascii c) 0 = false.
Proof.
  destruct c as [[] [] [] [] [] [] [] []]; vm_compute; congruence.
Qed.

Lemma hexdigit_not_surrogate c :
  is_hexdigit c = true →
  ((55296 <=? code_point [c]) && (code_point [c] <=? 57343))%N = false.
Proof.
  destruct c as [[] [] [] [] [] [] [] []]; vm_compute; congruence.
Qed.

Lemma chars_single b rest : width b = 1%nat → chars (b :: rest) = [b] :: chars rest.
Proof. intros Hw. cbn [chars]. by rewrite Hw. Qed.

(** Hexadecimal digits are one byte each. *)
Lemma chars_hex l : forallb is_hexdigit l = true → chars l = (λ b, [b]) <$> l.
Proof.
  induction l as [|c l IH]; [done|]. cbn [forallb].
  intros [Hc Hl]%andb_prop.
  rewrite chars_single by by apply hexdigit_width. by rewrite IH.
Qed.

Lemma lstrip_hex l :
  forallb is_hexdigit l = true →
  lstrip ((λ b, [b]) <$> l) = (λ b, [b]) <$> l.
Proof.
  destruct l as [|c l]; [done|]. cbn [forallb fmap list_fmap lstrip].
  intros [Hc _]%andb_prop. by rewrite hexdigit_not_space.
Qed.

Lemma forallb_rev {A} (f : A → bool) (l : list A) :
  forallb f l = true → forallb f (rev l) = true.
Proof.
  rewrite !forallb_forall. intros Hl x Hx. apply Hl. by apply in_rev.
Qed.

Lemma fmap_rev {A B} (f : A → B) (l : list A) : f <$> rev l = rev (f <$> l).
Proof. induction l as [|x l IH]; [done|]. cbn. by rewrite fmap_app, IH. Qed.

Lemma concat_singletons {A} (l : list A) : concat ((λ b, [b]) <$> l) = l.
Proof. induction l as [|x l IH]; [done|]. cbn. by rewrite IH. Qed.

Lemma strip_hex s : is_hex s = true → strip s = s.
Proof.
  unfold is_hex, strip. intros Hs.
  rewrite (chars_hex _ Hs), (lstrip_hex _ Hs).
  rewrite <- fmap_rev, (lstrip_hex _ (forallb_rev _ _ Hs)).
  rewrite <- fmap_rev, rev_involutive, concat_singletons.
  apply string_of_list_ascii_of_string.
Qed.

Lemma length_list_ascii_of_string s :
  length (list_ascii_of_string s) = String.length s.
Proof. induction s as [|c s IH]; [done|]. cbn. by rewrite IH. Qed.

Lemma len_hex s : is_hex s = true → len s = String.length s.
Proof.
  unfold is_hex, len. intros Hs.
  by rewrite (chars_hex _ Hs), length_fmap, length_list_ascii_of_string.
Qed.

Lemma has_null_hex s : is_hex s = true → has_null s = false.
Proof.
  unfold is_hex, has_null.
  induction (list_ascii_of_string s) as [|c l IH]; [done|]. cbn.
  intros [Hc Hl]%andb_prop. by rewrite hexdigit_not_null, IH.
Qed.

Lemma has_surrogate_hex s : is_hex s = true → has_surrogate s = false.
Proof.
  unfold is_hex, has_surrogate. intros Hs. rewrite (chars_hex _ Hs).
  induction (list_ascii_of_string s) as [|c l IH]; [done|].
  cbn [forallb] in Hs. apply andb_prop in Hs as [Hc Hl].
  cbn [fmap list_fmap existsb]. by rewrite hexdigit_not_surrogate, IH.
Qed.

(** X14: when the data has no 'key' entry and the generated key is 40
    hexadecimal digits, the key field accepts the generated key as it is:
    to_internal_value succeeds whenever the other fields do, and the
    validated key is the generated one. *)
Theorem generated_key_is_accepted `{OtherFields} generated_key data ret :
  data !! "key" = None →
  is_hex generated_key = true →
  String.length generated_key = 40%nat →
  other_fields_to_internal_value (<["key" := PyStr generated_key]> data) = inr ret →
  TokenSerializer.to_internal_value generated_key data
  = inr (<["key" := PyStr generated_key]> ret).
Proof.
  intros Hkey Hhex Hlen Hother.
  unfold TokenSerializer.to_internal_value, serializer_to_internal_value.
  rewrite Hkey, lookup_insert_eq, Hother.
  unfold run_validation, is_blank, char_to_internal_value.
  cbn [TokenSerializer.key trim_whitespace allow_blank str].
  rewrite (strip_hex _ Hhex).
  assert (run_validators TokenSerializer.key generated_key = inr generated_key) as ->.
  { apply run_validators_key_inr. split_and!; [done| |by apply has_null_hex|
      by apply has_surrogate_hex]. by rewrite len_hex. }
  destruct generated_key; [done|]. done.
Qed.

Lemma generated_key_is_accepted_witness :
  @TokenSerializer.to_internal_value no_other_fields sample_key
    {[ "description" := PyStr "ci" ]}
  = inr (<["key" := PyStr sample_key]> ∅).
Proof.
  apply (@generated_key_is_accepted no_other_fields sample_key
           {[ "description" := PyStr "ci" ]} ∅);
    vm_compute; reflexivity.
Defined.

(** X15: a supplied 'key' is never replaced by a generated one, and the
    key field accepts it exactly when it is blank, or is a string or an
    integer whose trimmed text has 40 characters, no null character and
    no surrogate.  So null, booleans and keys of any other length are
    rejected, and an accepted key is stored blank or trimmed.  Characters
    are counted and whitespace is recognised as Python does, by code
    point. *)
Theorem supplied_key_acceptance `{OtherFields} generated_key data v ret :
  data !! "key" = Some v →
  other_fields_to_internal_value data = inr ret →
  let acceptable :=
    is_blank TokenSerializer.key v = true ∨
    (coercible v = true ∧
     len (strip (str v)) = 40%nat ∧
     has_null (strip (str v)) = false ∧
     has_surrogate (strip (str v)) = false) in
  (acceptable →
   TokenSerializer.to_internal_value generated_key data
   = inr (<["key" := PyStr (accepted_key v)]> ret)) ∧
  (¬ acceptable →
   ∃ e, TokenSerializer.to_internal_value generated_key data = inl e).
Proof.
  intros Hkey Hother acceptable. subst acceptable.
  unfold TokenSerializer.to_internal_value, serializer_to_internal_value, accepted_key.
  rewrite Hkey, Hkey, Hother. unfold run_validation.
  destruct (is_blank TokenSerializer.key v) eqn:Hb.
  - cbn. split; [done|]. intros Hn. destruct Hn. by left.
  - unfold char_to_internal_value.
    cbn [TokenSerializer.key trim_whitespace allow_null].
    destruct v as [|b|n|s|u|c]; cbn [coercible str].
    1,2,5,6: split; [by intros [|[? _]]|eauto].
    all: destruct (run_validators _ _) as [e|k] eqn:Hk.
    all: split; [intros [|(_ & Hok)]; [done|]|intros Hn].
    all: try (assert (run_validators TokenSerializer.key (strip (pretty n))
                      = inr (strip (pretty n))) as Hk'
                by (by apply run_validators_key_inr); congruence).
    all: try (assert (run_validators TokenSerializer.key (strip s) = inr (strip s))
                as Hk' by (by apply run_validators_key_inr); congruence).
    all: try by eauto.
    all: apply run_validators_key_inr in Hk as (-> & Hok); try done.
    all: destruct Hn; by right.
Qed.

Lemma supplied_key_acceptance_witness :
  @TokenSerializer.to_internal_value no_other_fields sample_key
    {[ "key" := PyStr (nbsp +:+ "fedcba9876543210fedcba9876543210fedcba98 ") ]}
  = inr {[ "key" := PyStr "fedcba9876543210fedcba9876543210fedcba98" ]} ∧
  ∃ e, @TokenSerializer.to_internal_value no_other_fields sample_key
         {[ "key" := PyStr (nbsp +:+ "fedcba9876543210fedcba9876543210fedcba9") ]}
       = inl e.
Proof.
  split.
  - destruct (@supplied_key_acceptance no_other_fields sample_key
                {[ "key" := PyStr (nbsp +:+ "fedcba9876543210fedcba9876543210fedcba98 ") ]}
                (PyStr (nbsp +:+ "fedcba9876543210fedcba9876543210fedcba98 ")) ∅)
      as [Hyes _]; [vm_compute; reflexivity..|].
    rewrite Hyes; [vm_compute; reflexivity|].
    right. vm_compute. done.
  - destruct (@supplied_key_acceptance no_other_fields sample_key
                {[ "key" := PyStr (nbsp +:+ "fedcba9876543210fedcba9876543210fedcba9") ]}
                (PyStr (nbsp +:+ "fedcba9876543210fedcba9876543210fedcba9")) ∅)
      as [_ Hno]; [vm_compute; reflexivity..|].
    apply Hno. vm_compute. intros [|(_ & ? & _)]; done.
Defined.
